(** * A shallow embedding of the build-lifecycle core of unitycloudbuild

    The Go functions of [commands.go] that the specification talks about are
    modelled here: the response classifier [doRequest], the status predicate
    [IsBuildActive], the completion monitor [Builds_WaitForComplete], the
    latest-build resolver [Builds_Latest], the revision matcher
    [Git_BuildsMatchHead] and the artifact retriever [Builds_Download].
    Network and file-system effects are explicit inputs (oracles) and
    explicit outputs (traces). *)

From Stdlib Require Import ZArith String Ascii List Bool Lia.
From stdpp Require Import base gmap strings list.

Import ListNotations.
Open Scope Z_scope.

(* ------------------------------------------------------------------------- *)
(** ** Data model ([types.go]) *)

(** [Link]: only the fields the core reads. [Meta.Type] is the declared
    content type of the artifact. *)
Record Link := mkLink {
  link_Href : string;
  link_MetaType : string
}.

(** [Links]: the optional primary download link. *)
Record Links := mkLinks {
  DownloadPrimary : option Link
}.

(** [Build]: the fields read by the monitor, the matcher and the retriever. *)
Record Build := mkBuild {
  Number : Z;
  TargetId : string;
  Status : string;
  LastBuiltRevision : string;
  build_Links : Links
}.

(** [BuildTarget]: identifier, enabled flag and the builds reported with it
    (with [include_last_success=true] this is the last successful build). *)
Record BuildTarget := mkBuildTarget {
  Id : string;
  Enabled : bool;
  Builds : list Build
}.

(** Go [error] values of the package: the two sentinels and the values made
    by [fmt.Errorf] (carried as their message). *)
Inductive go_error :=
  | RateLimitedError
  | ResourceNotFoundError
  | ErrMsg (msg : string).

(** [OutputFormat]. *)
Inductive OutputFormat := OutputFormat_None | OutputFormat_JSON | OutputFormat_Human.

Definition is_human (f : OutputFormat) : bool :=
  match f with OutputFormat_Human => true | _ => false end.

(* ------------------------------------------------------------------------- *)
(** ** [fmt]'s [%d] on a Go [int] *)

Fixpoint dec_digits (fuel : nat) (n : Z) (acc : string) : string :=
  match fuel with
  | O => acc
  | S f =>
      let acc' := String (ascii_of_nat (48 + Z.to_nat (Z.rem n 10))) acc in
      if Z.quot n 10 =? 0 then acc' else dec_digits f (Z.quot n 10) acc'
  end.

(** Decimal rendering; 64 digits cover every 64-bit [int]. *)
Definition fmt_d (z : Z) : string :=
  if z <? 0 then String "-" (dec_digits 64 (- z) EmptyString)
  else dec_digits 64 z EmptyString.

(* ------------------------------------------------------------------------- *)
(** ** Result classifier: [doRequest] *)

(** What [doRequest] hands back once the transport delivered a status and a
    body: a payload (decoded when the caller passed a result shape), a Go
    error, or the process exit of [log.Fatal] on a malformed success body. *)
Inductive req_outcome (A : Type) :=
  | ROk (payload : option A)
  | ROErr (e : go_error)
  | ROFatal.
Arguments ROk {A} payload.
Arguments ROErr {A} e.
Arguments ROFatal {A}.

Section DoRequest.
Context {A : Type}.
(** [json.Unmarshal(body, &e)] into [errorMessage{Error string}]: the
    decoded [error] field, or [None] when the decode fails (then [e.Error]
    keeps its zero value [""]). *)
Variable decode_errorMessage : string -> option string.

(** [result] is the caller's shape: [None] for a nil [result], otherwise
    the decoder of [json.Unmarshal(body, &result)]. *)
Definition doRequest (result : option (string -> option A))
    (StatusCode : Z) (body : string) : req_outcome A :=
  if StatusCode =? 429 then ROErr RateLimitedError
  else if (StatusCode =? 200) || (StatusCode =? 202) then
    match result with
    | Some decode =>
        match decode body with
        | Some v => ROk (Some v)
        | None => ROFatal
        end
    | None => ROk None
    end
  else if StatusCode =? 204 then ROk None
  else if StatusCode =? 404 then ROErr ResourceNotFoundError
  else
    let e_Error := match decode_errorMessage body with
                   | Some m => m | None => EmptyString end in
    ROErr (ErrMsg ("[HTTP " ++ fmt_d StatusCode ++ "] " ++ e_Error)%string).
End DoRequest.

(* ------------------------------------------------------------------------- *)
(** ** [IsBuildActive] *)

Definition terminal_statuses : list string :=
  ["success"; "failure"; "canceled"; "unknown"]%string.

(** [switch build.Status { case "success", "failure", "canceled",
    "unknown": return false; default: return true }] *)
Definition IsBuildActive (build : Build) : bool :=
  if existsb (String.eqb (Status build)) terminal_statuses then false else true.

(* ------------------------------------------------------------------------- *)
(** ** Completion monitor: [Builds_WaitForComplete] after the watch set
    [builds] has been collected *)

(** What the monitor does that can be observed: a [Builds_Status] request
    for the entry holding [b] (a network call), and the lines printed in
    human output mode. *)
Inductive event :=
  | EvPoll (b : Build)
  | EvWatching (tid : string) (num : Z)
  | EvChanged (tid : string) (num : Z) (old new : string)
  | EvFinished (tid : string) (num : Z) (status : string)
  | EvComplete.

(** The monitor's locals: [builds], [finishedBuilds], [lastBuildStatus],
    [finishedBuildsCount], plus the trace of events so far. *)
Record mstate := mkMState {
  ms_builds : list Build;
  ms_finished : gmap string bool;
  ms_last : gmap string string;
  ms_count : nat;
  ms_trace : list event
}.

Definition ms_log (ev : event) (st : mstate) : mstate :=
  mkMState (ms_builds st) (ms_finished st) (ms_last st) (ms_count st)
    (ms_trace st ++ [ev]).

(** Result of one pass of [for i, build := range builds] in a tick. *)
Inductive loop_res :=
  | LContinue (st : mstate)
  | LBreak (st : mstate)
  | LReturn (e : go_error) (st : mstate).

(** Result of the [Poll:] loop, run for at most [fuel] ticks. *)
Inductive poll_res :=
  | PollExit (st : mstate)
  | PollReturn (e : go_error) (st : mstate)
  | PollFuel (st : mstate).

Definition loop_state (r : loop_res) : mstate :=
  match r with LContinue st | LBreak st | LReturn _ st => st end.

Definition poll_state (r : poll_res) : mstate :=
  match r with PollExit st | PollReturn _ st | PollFuel st => st end.

(** Outcome of the whole call: the returned [error] ([None] for [nil]), or
    still polling when the tick budget ran out. *)
Inductive wait_res :=
  | WReturn (err : option go_error)
  | WStillPolling.

Section Monitor.
(** [Build.UniqueId()], the key of the monitor's maps. Any function. *)
Variable UniqueId : Build -> string.
(** The status fetch [Builds_Status(&quietContext, target, number)] issued
    during tick [t]. *)
Variable fetch : nat -> string -> Z -> Build + go_error.
(** [context.OutputFormat] and [abortOnFail]. *)
Variable fmt : OutputFormat.
Variable abortOnFail : bool.

(** A line printed only [if context.OutputFormat == OutputFormat_Human]. *)
Definition say (ev : event) (st : mstate) : mstate :=
  if is_human fmt then ms_log ev st else st.

Definition finished_of (st : mstate) (k : string) : bool :=
  default false (ms_finished st !! k).

Definition last_of (st : mstate) (k : string) : string :=
  default EmptyString (ms_last st !! k).

Definition abort_msg (b : Build) : string :=
  ("Aborting early, build: " ++ TargetId b ++ " #" ++ fmt_d (Number b)
    ++ " failed with status: " ++ Status b)%string.

(** Body of the inner loop for index [i] holding [build], tick [t]. *)
Definition poll_entry (t i : nat) (build : Build) (st : mstate) : loop_res :=
  if finished_of st (UniqueId build) then LContinue st
  else
    let st := ms_log (EvPoll build) st in
    match fetch t (TargetId build) (Number build) with
    | inr RateLimitedError => LBreak st
    | inr err => LReturn err st
    | inl ub =>
        (* builds[i] = updatedBuild; build = updatedBuild *)
        let st := mkMState (<[i := ub]> (ms_builds st)) (ms_finished st)
                    (ms_last st) (ms_count st) (ms_trace st) in
        let k := UniqueId ub in
        let lastStatus := last_of st k in
        let st :=
          if negb (String.eqb lastStatus (Status ub)) then
            let st := say (EvChanged (TargetId ub) (Number ub) lastStatus (Status ub)) st in
            mkMState (ms_builds st) (ms_finished st)
              (<[k := Status ub]> (ms_last st)) (ms_count st) (ms_trace st)
          else st in
        if negb (IsBuildActive ub) then
          let st := mkMState (ms_builds st) (<[k := true]> (ms_finished st))
                      (ms_last st) (S (ms_count st)) (ms_trace st) in
          let st := say (EvFinished (TargetId ub) (Number ub) (Status ub)) st in
          if abortOnFail && negb (String.eqb (Status ub) "success") then
            LReturn (ErrMsg (abort_msg ub)) st
          else LContinue st
        else LContinue st
    end.

(** [for i, build := range builds { ... }] over the slice as it was when
    the loop started; [i] is the index. *)
Fixpoint tick_loop (t i : nat) (bs : list Build) (st : mstate) : loop_res :=
  match bs with
  | [] => LContinue st
  | b :: rest =>
      match poll_entry t i b st with
      | LContinue st' => tick_loop t (S i) rest st'
      | r => r
      end
  end.

Definition tick (t : nat) (st : mstate) : loop_res :=
  tick_loop t 0 (ms_builds st) st.

(** [Poll: for { select { case <-time.After(pollRate): ... } }] for at
    most [fuel] ticks, the first one numbered [t]. *)
Fixpoint poll (fuel t : nat) (st : mstate) : poll_res :=
  match fuel with
  | O => PollFuel st
  | S f =>
      match tick t st with
      | LReturn e st' => PollReturn e st'
      | LContinue st' | LBreak st' =>
          if Nat.eqb (ms_count st') (length (ms_builds st')) then PollExit st'
          else poll f (S t) st'
      end
  end.

Definition not_active_msg (b : Build) : string :=
  ("Build #" ++ fmt_d (Number b) ++ " for target " ++ TargetId b
    ++ " is not active")%string.

Definition failed_msg (b : Build) : string :=
  ("Build: " ++ TargetId b ++ " #" ++ fmt_d (Number b) ++ " failed")%string.

(** The set-up loop: reject a build that is not active, otherwise seed
    [finishedBuilds] and [lastBuildStatus]. *)
Fixpoint watch_init (bs : list Build) (st : mstate) : (go_error * mstate) + mstate :=
  match bs with
  | [] => inr st
  | b :: rest =>
      if negb (IsBuildActive b) then inl (ErrMsg (not_active_msg b), st)
      else
        let st := mkMState (ms_builds st) (<[UniqueId b := false]> (ms_finished st))
                    (<[UniqueId b := Status b]> (ms_last st)) (ms_count st)
                    (ms_trace st) in
        watch_init rest (say (EvWatching (TargetId b) (Number b)) st)
  end.

(** The closing loop: the first build whose status is not ["success"]. *)
Fixpoint first_unsuccessful (bs : list Build) : option Build :=
  match bs with
  | [] => None
  | b :: rest =>
      if String.eqb (Status b) "success" then first_unsuccessful rest else Some b
  end.

(** [Builds_WaitForComplete] from [if len(builds) == 0] on. *)
Definition wait_watch (fuel : nat) (builds : list Build) : wait_res * list event :=
  match builds with
  | [] => (WReturn (Some (ErrMsg "No builds found")), [])
  | _ =>
      match watch_init builds (mkMState builds ∅ ∅ 0 []) with
      | inl (e, st) => (WReturn (Some e), ms_trace st)
      | inr st =>
          match poll fuel 0 st with
          | PollReturn e st' => (WReturn (Some e), ms_trace st')
          | PollFuel st' => (WStillPolling, ms_trace st')
          | PollExit st' =>
              match first_unsuccessful (ms_builds st') with
              | Some b => (WReturn (Some (ErrMsg (failed_msg b))), ms_trace st')
              | None => (WReturn None, ms_trace (say EvComplete st'))
              end
          end
      end
  end.
End Monitor.

(* ------------------------------------------------------------------------- *)
(** ** Build status resolver: [Builds_List] and [Builds_Latest] *)

Section Resolver.
(** The server's answers, already through [doRequest]: the target listing
    [GET buildtargets?include_last_success=true], and a target's build
    history [GET buildtargets/{id}/builds] with the given [buildStatus]
    filter ([""] for none), most recent first. *)
Variable targets_resp : list BuildTarget + go_error.
Variable history_resp : string -> string -> list Build + go_error.

(** [Builds_List(ctx, id, filterStatus, "", limit)]: no platform filter;
    [entries[0:min(len(entries), int(limit))]] when [limit > 0]. *)
Definition Builds_List (buildTargetId filterStatus : string) (limit : Z)
    : list Build + go_error :=
  match history_resp buildTargetId filterStatus with
  | inr e => inr e
  | inl entries =>
      inl (if 0 <? limit then take (Z.to_nat limit) entries else entries)
  end.

Definition skip_target (onlyEnabled : bool) (t : BuildTarget) : bool :=
  onlyEnabled && negb (Enabled t).

(** First loop: [builds[target.Id] = &target.Builds[0]] or [nil]. *)
Fixpoint latest_pass1 (onlyEnabled : bool) (ts : list BuildTarget)
    (m : gmap string (option Build)) : gmap string (option Build) :=
  match ts with
  | [] => m
  | t :: rest =>
      if skip_target onlyEnabled t then latest_pass1 onlyEnabled rest m
      else latest_pass1 onlyEnabled rest (<[Id t := head (Builds t)]> m)
  end.

(** Second loop ([!onlySuccess]): one [Builds_List(id, "", "", 1)] per
    kept target, recorded in [calls]; the first entry, if any, replaces
    the map's value. *)
Fixpoint latest_pass2 (onlyEnabled : bool) (ts : list BuildTarget)
    (m : gmap string (option Build)) (calls : list string)
    : list string * (gmap string (option Build) + go_error) :=
  match ts with
  | [] => (calls, inl m)
  | t :: rest =>
      if skip_target onlyEnabled t then latest_pass2 onlyEnabled rest m calls
      else
        let calls := calls ++ [Id t] in
        match Builds_List (Id t) EmptyString 1 with
        | inr e => (calls, inr e)
        | inl targetBuilds =>
            let m := match targetBuilds with
                     | b :: _ => <[Id t := Some b]> m
                     | [] => m
                     end in
            latest_pass2 onlyEnabled rest m calls
        end
  end.

(** [Builds_Latest(ctx, onlySuccess, onlyEnabled)]: the ids queried in the
    second pass and the returned map. *)
Definition Builds_Latest (onlySuccess onlyEnabled : bool)
    : list string * (gmap string (option Build) + go_error) :=
  match targets_resp with
  | inr e => ([], inr e)
  | inl targets =>
      let builds := latest_pass1 onlyEnabled targets ∅ in
      if negb onlySuccess then latest_pass2 onlyEnabled targets builds []
      else ([], inl builds)
  end.
End Resolver.

(* ------------------------------------------------------------------------- *)
(** ** Revision matcher: [Git_BuildsMatchHead] *)

(** What the [for _, build := range builds] body decides for one build. *)
Inductive build_check := NotSuccessful | RevisionMismatch | MatchesHead.

Definition check_build (head : string) (build : Build) : build_check :=
  if negb (String.eqb (Status build) "success") then NotSuccessful
  else if negb (String.eqb (LastBuiltRevision build) head) then RevisionMismatch
  else MatchesHead.

(** [(bool, error)] returned, or a run-time panic. *)
Inductive match_res := MROk (allMatch : bool) | MRErr (e : go_error) | MRPanic.

Section Matcher.
Variable fmt : OutputFormat.
(** [commit.Revision] from [Git_Head]. *)
Variable head : string.

(** The mismatch message slices [build.LastBuiltRevision[:8]] and
    [commit.Revision[:8]]: a panic in human mode when one is shorter. *)
Definition mismatch_print_panics (build : Build) : bool :=
  is_human fmt && ((String.length (LastBuiltRevision build) <? 8)%nat
                   || (String.length head <? 8)%nat).

(** [allMatch := true]; the missing targets, then the builds. *)
Fixpoint check_builds (builds : list Build) (allMatch : bool) : match_res :=
  match builds with
  | [] => MROk allMatch
  | b :: rest =>
      match check_build head b with
      | NotSuccessful => check_builds rest false
      | RevisionMismatch =>
          if mismatch_print_panics b then MRPanic else check_builds rest false
      | MatchesHead => check_builds rest allMatch
      end
  end.

Definition check_all (missingBuilds : list string) (builds : list Build) : match_res :=
  check_builds builds (match missingBuilds with [] => true | _ => false end).

Variable targets_resp : list BuildTarget + go_error.
Variable history_resp : string -> string -> list Build + go_error.
(** [Builds_Status(&quietContext, target, number)]. *)
Variable status_resp : string -> Z -> Build + go_error.

(** The collection of [builds] and [missingBuilds]. Go ranges over the
    map in an unspecified order; [map_to_list] fixes one. *)
Definition collect (buildTargetId : string) (buildNumber : Z) (all : bool)
    : (list Build * list string) + go_error :=
  if all then
    match snd (Builds_Latest targets_resp history_resp true true) with
    | inr e => inr e
    | inl latest =>
        inl (foldl (fun acc kv =>
                match kv.2 with
                | None => (acc.1, acc.2 ++ [kv.1])
                | Some b => (acc.1 ++ [b], acc.2)
                end) ([], []) (map_to_list latest))
    end
  else if 0 <? buildNumber then
    match status_resp buildTargetId buildNumber with
    | inr e => inr e
    | inl b => inl ([b], [])
    end
  else
    match snd (Builds_Latest targets_resp history_resp true true) with
    | inr e => inr e
    | inl latest =>
        match latest !! buildTargetId with
        | Some None => inl ([], [buildTargetId])
        | Some (Some b) => inl ([b], [])
        | None => inl ([], [])
        end
    end.

Definition Git_BuildsMatchHead (buildTargetId : string) (buildNumber : Z)
    (all : bool) : match_res :=
  match collect buildTargetId buildNumber all with
  | inr e => MRErr e
  | inl (builds, missingBuilds) => check_all missingBuilds builds
  end.
End Matcher.

(* ------------------------------------------------------------------------- *)
(** ** Artifact retriever: [Builds_Download] and [grabHttpFile] *)

(** The files on disk and the paths with an open handle. *)
Record fs := mkFs {
  fs_files : gmap string string;
  fs_open : gset string
}.

(** The host the binary runs on: [make_release.sh] builds for Linux, macOS
    and Windows. On Windows, [os.Create] opens without
    [FILE_SHARE_DELETE], so [os.Remove] of a file still open fails. *)
Inductive platform := Posix | Windows.

(** [os.Remove(name)]; its error is ignored by the caller. *)
Definition os_Remove (p : platform) (name : string) (f : fs) : fs :=
  match p with
  | Windows => if bool_decide (name ∈ fs_open f) then f
               else mkFs (delete name (fs_files f)) (fs_open f)
  | Posix => mkFs (delete name (fs_files f)) (fs_open f)
  end.

Definition file_Close (name : string) (f : fs) : fs :=
  mkFs (fs_files f) (fs_open f ∖ {[ name ]}).

(** [os.Create] / [ioutil.TempFile]: an empty file, opened. *)
Definition os_Create (name : string) (f : fs) : fs :=
  mkFs (<[name := EmptyString]> (fs_files f)) ({[ name ]} ∪ fs_open f).

Definition write_file (name data : string) (f : fs) : fs :=
  mkFs (<[name := data]> (fs_files f)) (fs_open f).

(** A pending [defer]. *)
Inductive deferred := DClose (name : string) | DRemove (name : string).

Definition run_deferred (p : platform) (d : deferred) (f : fs) : fs :=
  match d with
  | DClose n => file_Close n f
  | DRemove n => os_Remove p n f
  end.

(** Deferred calls run last-pushed first; the stack's head is the last push. *)
Definition run_defers (p : platform) (ds : list deferred) (f : fs) : fs :=
  fold_left (fun f d => run_deferred p d f) ds f.

(** [os.Stat]: a [FileInfo] (its [IsDir()]) or an error. *)
Inductive stat_error := ErrNotExist | ErrStatOther (msg : string).
Definition stat_result := (bool + stat_error)%type.

(** The HTTP GET of the artifact: [http.Get] fails, or a response with its
    status code, the body bytes delivered, and the error [io.Copy] met
    after them, if any. *)
Inductive transfer :=
  | GetError (msg : string)
  | Response (code : Z) (body : string) (copy_err : option string).

(** Observable steps of a download: a network transfer, a file created. *)
Inductive dl_event := EvTransfer (href : string) | EvCreate (name : string).

Inductive dl_res := DOk | DErr (e : go_error) | DPanic.

Section Download.
Variable plat : platform.
Variable stat : string -> stat_result.
(** [http.Get] of a link, as seen by [grabHttpFile]. *)
Variable grab : string -> transfer.
(** [url.Parse] of the link and the file name derived from it (the
    [response-content-disposition] hint, else [path.Base]). *)
Variable url_filename : string -> string + go_error.
(** [filepath.Join(outputDir, filename)] and the name [ioutil.TempFile]
    picks. *)
Variable join : string -> string -> string.
Variable temp_name : string -> string.
(** Extraction of the downloaded archive into [outputDir]. *)
Variable extract : string -> string -> fs -> fs * option go_error.

(** [strings.ToLower] (Unicode case mapping of UTF-8 text). *)
Variable strings_ToLower : string -> string.
(** The error [os.Create(name)] and [ioutil.TempFile("", pattern)] return,
    [None] when the file is created. *)
Variable create_err : string -> option go_error.
Variable tempfile_err : string -> option go_error.

(** [grabHttpFile(context, _url, file)]: copies the body into [name]. *)
Definition grabHttpFile (href name : string) (f : fs) : fs * option go_error :=
  match grab href with
  | GetError msg => (f, Some (ErrMsg msg))
  | Response code body copy_err =>
      if negb (code =? 200) then
        (f, Some (ErrMsg ("Could not download, got status code: " ++ fmt_d code)))
      else
        match copy_err with
        | None => (write_file name body f, None)
        | Some msg => (write_file name body f, Some (ErrMsg msg))
        end
  end.

Definition not_dir_msg (outputDir : string) : string :=
  ("Error: " ++ outputDir ++ " is not a directory or does not exist")%string.

(** [Builds_Download] from [// Determine output location] on, when the
    file is created: name the file, create it, [defer file.Close()],
    transfer, and unzip if asked. [download_output] adds the creation
    errors. *)
Definition download_to (link : Link) (outputDir : string) (unzip : bool)
    (f : fs) : dl_res * fs * list dl_event :=
  match url_filename (link_Href link) with
  | inr e => (DErr e, f, [])
  | inl filename =>
  let name := if unzip then temp_name filename else join outputDir filename in
  let f := os_Create name f in
  let defers := [DClose name] in
  let ev := [EvCreate name; EvTransfer (link_Href link)] in
  match grabHttpFile (link_Href link) name f with
  | (f, Some e) =>
      (* defer func() { os.Remove(file.Name()) }(); return err *)
      (DErr e, run_defers plat (DRemove name :: defers) f, ev)
  | (f, None) =>
      if negb unzip then (DOk, run_defers plat defers f, ev)
      else
        let defers := DRemove name :: defers in
        match extract name outputDir f with
        | (f, Some e) => (DErr e, run_defers plat defers f, ev)
        | (f, None) => (DOk, run_defers plat defers f, ev)
        end
  end
  end.

(** [Builds_Download] from [// Determine output location] on: an error of
    [os.Create] (or of [ioutil.TempFile] when unzipping) is returned before
    anything is created or transferred. *)
Definition download_output (link : Link) (outputDir : string) (unzip : bool)
    (f : fs) : dl_res * fs * list dl_event :=
  match url_filename (link_Href link) with
  | inr e => (DErr e, f, [])
  | inl filename =>
      match (if unzip then tempfile_err filename else create_err (join outputDir filename)) with
      | Some e => (DErr e, f, [])
      | None => download_to link outputDir unzip f
      end
  end.

(** [Builds_Download] once [build] has been resolved: the result, the
    file system after the call (deferred calls done) and the events. *)
Definition Builds_Download (build : Build) (outputDir : string) (unzip : bool)
    (f : fs) : dl_res * fs * list dl_event :=
  if negb (String.eqb (Status build) "success") then
    (DErr (ErrMsg ("Cannot download build, status is '" ++ Status build ++ "'")), f, [])
  else
  match DownloadPrimary (build_Links build) with
  | None => (DErr (ErrMsg "Missing download link for build"), f, [])
  | Some link =>
  if unzip && negb (String.eqb (strings_ToLower (link_MetaType link)) "zip") then
    (DErr (ErrMsg ("Cannot unzip build, filetype is " ++ strings_ToLower (link_MetaType link))),
     f, [])
  else
  let outputDir := if String.eqb outputDir EmptyString then "."%string else outputDir in
  let r := stat outputDir in
  (* os.IsNotExist(err) || !outputDirInfo.IsDir(), with a nil FileInfo
     when err != nil *)
  let guard : option bool :=
    match r with
    | inr ErrNotExist => Some true
    | inl isDir => Some (negb isDir)
    | inr (ErrStatOther _) => None
    end in
  match guard with
  | None => (DPanic, f, [])
  | Some true => (DErr (ErrMsg (not_dir_msg outputDir)), f, [])
  | Some false =>
  match r with
  | inr (ErrStatOther msg) =>
      (DErr (ErrMsg ("Error stat'ing directory: " ++ msg)), f, [])
  | _ => download_output link outputDir unzip f
  end
  end
  end.
End Download.

(* ------------------------------------------------------------------------- *)
(** ** The other commands of [commands.go] *)

(** What a command hands back: its value, a returned [error], the process
    exit of [log.Fatal]/[log.Fatalf], or a run-time panic. *)
Inductive call_res (A : Type) :=
  | COk (v : A)
  | CErr (e : go_error)
  | CFatal
  | CPanic.
Arguments COk {A} v.
Arguments CErr {A} e.
Arguments CFatal {A}.
Arguments CPanic {A}.

(** [BuildAttempt] is not declared in the sources; the commands read its
    [Build] and [Error] fields, and nothing else. *)
Record BuildAttempt := mkBuildAttempt {
  attempt_Build : Build;
  attempt_Error : string
}.

Section Start.
(** [fmt.Errorf(s)] with no argument: [s] read as a format string. *)
Variable errorf : string -> string.

(** [Builds_Start] after [doRequest(..., &entries)]: a 204 leaves
    [entries] nil. *)
Definition Builds_Start (resp : req_outcome (list BuildAttempt)) : call_res BuildAttempt :=
  match resp with
  | ROFatal => CFatal
  | ROErr e => CErr e
  | ROk entries =>
      match default [] entries with
      | [] => CErr (ErrMsg "No builds started...")
      | a :: _ =>
          if (0 <? String.length (attempt_Error a))%nat
          then CErr (ErrMsg (errorf (attempt_Error a)))
          else COk a
      end
  end.
End Start.

(** [Builds_StartAll] after [doRequest(..., &entries)]. *)
Definition Builds_StartAll (resp : req_outcome (list BuildAttempt))
    : call_res (list BuildAttempt) :=
  match resp with
  | ROFatal => CFatal
  | ROErr e => CErr e
  | ROk entries =>
      match default [] entries with
      | [] => CErr (ErrMsg "No builds started...")
      | l => COk l
      end
  end.

(** [Builds_Cancel] after [doRequest(..., nil)] of
    [DELETE buildtargets/{id}/builds/{n}]. *)
Definition Builds_Cancel (buildTargetId : string) (buildNumber : Z)
    (resp : req_outcome unit) : call_res unit :=
  match resp with
  | ROFatal => CFatal
  | ROErr ResourceNotFoundError =>
      CErr (ErrMsg ("Cannot find " ++ buildTargetId ++ " build #" ++ fmt_d buildNumber))
  | ROErr e => CErr e
  | ROk _ => COk tt
  end.

(** The URL [buildRequest] hands to [http.NewRequest]. *)
Definition api_url (OrgId ProjectId path : string) : string :=
  ("https://build-api.cloud.unity3d.com/api/v1/orgs/" ++ OrgId ++ "/projects/" ++ ProjectId
   ++ "/" ++ path)%string.

(** [buildRequest] with a nil body: the URL of the request, or [None] for
    the [log.Fatal] when [http.NewRequest] rejects it; [url_ok] is
    [http.NewRequest]'s verdict on a URL (its [url.Parse]). *)
Definition buildRequest (url_ok : string -> bool) (OrgId ProjectId path : string)
    : option string :=
  let u := api_url OrgId ProjectId path in
  if url_ok u then Some u else None.

(** The whole of [Builds_Cancel]: [buildRequest] of
    [buildtargets/{id}/builds/{n}], then [doRequest]'s answer [resp]. *)
Definition Builds_Cancel_call (url_ok : string -> bool) (OrgId ProjectId : string)
    (buildTargetId : string) (buildNumber : Z) (resp : req_outcome unit) : call_res unit :=
  match buildRequest url_ok OrgId ProjectId
          ("buildtargets/" ++ buildTargetId ++ "/builds/" ++ fmt_d buildNumber)%string with
  | None => CFatal
  | Some _ => Builds_Cancel buildTargetId buildNumber resp
  end.

Section CancelAll.
(** [Targets_List] of the target listing, and the error [doRequest] returns
    for [DELETE buildtargets/{id}/builds] ([None] for [nil]). *)
Variable targets_list : list BuildTarget + go_error.
Variable cancel_resp : string -> option go_error.

(** The loop over [targets]; [calls] are the ids whose builds a [DELETE]
    was sent for. *)
Fixpoint cancel_targets (buildTargetId : string) (ts : list BuildTarget)
    (calls : list string) : list string * option go_error :=
  match ts with
  | [] => (calls, None)
  | t :: rest =>
      if (0 <? String.length buildTargetId)%nat && negb (String.eqb buildTargetId (Id t))
      then cancel_targets buildTargetId rest calls
      else
        let calls := calls ++ [Id t] in
        match cancel_resp (Id t) with
        | Some e => (calls, Some e)
        | None => cancel_targets buildTargetId rest calls
        end
  end.

(** [Builds_CancelAll]; [None] when [Targets_List] fails ([log.Fatal]). *)
Definition Builds_CancelAll (buildTargetId : string) : option (list string * option go_error) :=
  match targets_list with
  | inr _ => None
  | inl targets => Some (cancel_targets buildTargetId targets [])
  end.
End CancelAll.

(** [validPlatforms]. *)
Definition validPlatforms : list string :=
  ["ios"; "android"; "webgl"; "standaloneosxintel"; "standaloneosxintel64";
   "standaloneosxuniversal"; "standalonewindows"; "standalonewindows64";
   "standalonelinux"; "standalonelinux64"; "standalonelinuxuniversal"]%string.

(** The literal of [platformShorthand]. *)
Definition platformShorthand_literal : list (string * string) :=
  [("osx", "standaloneosxuniversal"); ("win", "standalonewindows");
   ("win64", "standalonewindows64"); ("linux", "standalonelinuxuniversal");
   ("", "")]%string.

(** [platformShorthand] once [init] has run
    [for _, p := range validPlatforms { platformShorthand[p] = p }]. *)
Definition platformShorthand : gmap string string :=
  foldl (fun m p => <[p := p]> m) (list_to_map platformShorthand_literal) validPlatforms.

(** [min(a, b)]. *)
Definition go_min (a b : Z) : Z := if a >? b then b else a.

(** [s[0:hi]]; a bound outside [0 .. len(s)] is given as [None] (the panic
    when it also exceeds the capacity). *)
Definition go_slice {A : Type} (s : list A) (hi : Z) : option (list A) :=
  if (0 <=? hi) && (hi <=? Z.of_nat (length s)) then Some (take (Z.to_nat hi) s) else None.

(** The query parameters [Builds_List] adds, in order, or [None] when it
    stops in [log.Fatalf("No such platform: %s", ...)]. *)
Definition list_query (filterStatus filterPlatform : string)
    : option (list (string * string)) :=
  let q := if (String.length filterStatus =? 0)%nat then []
           else [("buildStatus", filterStatus)%string] in
  if (String.length filterPlatform =? 0)%nat then Some q
  else match platformShorthand !! filterPlatform with
       | Some val => Some (q ++ [("platform"%string, val)])
       | None => None
       end.

(** [Builds_List] with all its filters. [list_resp id q] is the answer to
    [GET buildtargets/{id}/builds?q], through [doRequest]. *)
Definition Builds_List_query
    (list_resp : string -> list (string * string) -> list Build + go_error)
    (buildTargetId filterStatus filterPlatform : string) (limit : Z) : call_res (list Build) :=
  match list_query filterStatus filterPlatform with
  | None => CFatal
  | Some q =>
      match list_resp buildTargetId q with
      | inr e => CErr e
      | inl entries =>
          if 0 <? limit then
            match go_slice entries (go_min (Z.of_nat (length entries)) limit) with
            | Some l => COk l
            | None => CPanic
            end
          else COk entries
      end
  end.

Section Collect.
Variable targets_resp : list BuildTarget + go_error.
Variable history_resp : string -> string -> list Build + go_error.
Variable status_resp : string -> Z -> Build + go_error.

(** The collection of [builds] at the start of [Builds_WaitForComplete].
    Go ranges over the map in an unspecified order; [map_to_list] fixes
    one. *)
Definition watch_collect (buildTargetId : string) (buildNumber : Z) (all : bool)
    : list Build + go_error :=
  if all then
    match snd (Builds_Latest targets_resp history_resp false true) with
    | inr e => inr e
    | inl latest =>
        inl (foldl (fun acc kv =>
                match kv.2 with
                | Some b => if IsBuildActive b then acc ++ [b] else acc
                | None => acc
                end) [] (map_to_list latest))
    end
  else if 0 <? buildNumber then
    match status_resp buildTargetId buildNumber with
    | inr e => inr e
    | inl b => inl [b]
    end
  else
    match snd (Builds_Latest targets_resp history_resp false true) with
    | inr e => inr e
    | inl latest =>
        match latest !! buildTargetId with
        | Some (Some b) => inl [b]
        | _ => inl []
        end
    end.

(** The build [Builds_Download] fetches: [Builds_Status] of the number, or
    with [latest] the first of [Builds_List(id, "success", "", 1)]; an
    error of either request ends in [log.Fatal]. *)
Definition download_build (buildTargetId : string) (buildNumber : Z) (latest : bool)
    : call_res Build :=
  if negb latest then
    match status_resp buildTargetId buildNumber with
    | inr _ => CFatal
    | inl b => COk b
    end
  else
    match Builds_List history_resp buildTargetId "success" 1 with
    | inr _ => CFatal
    | inl [] => CErr (ErrMsg ("No successful build for target " ++ buildTargetId))
    | inl (b :: _) => COk b
    end.
End Collect.

(** The whole of [Builds_WaitForComplete]. *)
Definition Builds_WaitForComplete (UniqueId : Build -> string)
    (fetch : nat -> string -> Z -> Build + go_error) (fmt : OutputFormat)
    (targets_resp : list BuildTarget + go_error)
    (history_resp : string -> string -> list Build + go_error)
    (status_resp : string -> Z -> Build + go_error) (fuel : nat)
    (buildTargetId : string) (buildNumber : Z) (all abortOnFail : bool)
    : wait_res * list event :=
  match watch_collect targets_resp history_resp status_resp buildTargetId buildNumber all with
  | inr e => (WReturn (Some e), [])
  | inl builds => wait_watch UniqueId fetch fmt abortOnFail fuel builds
  end.

(** The whole of [Builds_Download]; [None] when it stops in [log.Fatal]. *)
Definition Builds_Download_cmd (plat : platform) (stat : string -> stat_result)
    (grab : string -> transfer) (url_filename : string -> string + go_error)
    (join : string -> string -> string) (temp_name : string -> string)
    (extract : string -> string -> fs -> fs * option go_error)
    (strings_ToLower : string -> string) (create_err tempfile_err : string -> option go_error)
    (history_resp : string -> string -> list Build + go_error)
    (status_resp : string -> Z -> Build + go_error)
    (buildTargetId : string) (buildNumber : Z) (latest : bool) (outputDir : string)
    (unzip : bool) (f : fs) : option (dl_res * fs * list dl_event) :=
  match download_build history_resp status_resp buildTargetId buildNumber latest with
  | CFatal | CPanic => None
  | CErr e => Some (DErr e, f, [])
  | COk build =>
      Some (Builds_Download plat stat grab url_filename join temp_name extract
              strings_ToLower create_err tempfile_err build outputDir unzip f)
  end.

(** What [Git_Head] hands back: the head revision, the error of
    [git.PlainOpenWithOptions] when no repository opens, or the process
    exit of [fatalIfError] when the head or its commit cannot be read. *)
Inductive git_head_res :=
  | GitHead (Revision : string)
  | GitHeadErr (e : go_error)
  | GitHeadFatal.

(** The whole of [Git_BuildsMatchHead], [Git_Head] first; [None] when the
    process exits. *)
Definition Git_BuildsMatchHead_call (fmt : OutputFormat) (head_res : git_head_res)
    (targets_resp : list BuildTarget + go_error)
    (history_resp : string -> string -> list Build + go_error)
    (status_resp : string -> Z -> Build + go_error)
    (buildTargetId : string) (buildNumber : Z) (all : bool) : option match_res :=
  match head_res with
  | GitHeadFatal => None
  | GitHeadErr e => Some (MRErr e)
  | GitHead Revision =>
      Some (Git_BuildsMatchHead fmt Revision targets_resp history_resp status_resp
              buildTargetId buildNumber all)
  end.

(* ========================================================================= *)
(** * Properties *)

(** ** Result classifier *)

(** C1: [doRequest] maps 200/202 with a decodable body to a success carrying
    the decoded value (no payload when the caller gives no shape), 204 to a
    success without payload, 404 to [ResourceNotFoundError], 429 to
    [RateLimitedError], and every other status to an error whose message is
    ["[HTTP <code>] <error>"], with [<error>] the decoded [{error}] field
    when that decode succeeds (empty otherwise). *)
Theorem doRequest_classifies {A : Type} (decode_errorMessage : string -> option string)
    (result : option (string -> option A)) (StatusCode : Z) (body : string) :
  ((StatusCode = 200 \/ StatusCode = 202) ->
     (forall decode v, result = Some decode -> decode body = Some v ->
        doRequest decode_errorMessage result StatusCode body = ROk (Some v)) /\
     (result = None -> doRequest decode_errorMessage result StatusCode body = ROk None)) /\
  (StatusCode = 204 -> doRequest decode_errorMessage result StatusCode body = ROk None) /\
  (StatusCode = 404 ->
     doRequest decode_errorMessage result StatusCode body = ROErr ResourceNotFoundError) /\
  (StatusCode = 429 ->
     doRequest decode_errorMessage result StatusCode body = ROErr RateLimitedError) /\
  (~ In StatusCode [200; 202; 204; 404; 429] ->
     doRequest decode_errorMessage result StatusCode body =
       ROErr (ErrMsg ("[HTTP " ++ fmt_d StatusCode ++ "] " ++
                      match decode_errorMessage body with
                      | Some m => m | None => EmptyString end)%string)).
Proof.
  unfold doRequest. refine (conj _ (conj _ (conj _ (conj _ _)))).
  - intros Hs. split.
    + intros decode v -> Hv. destruct Hs as [-> | ->]; simpl; now rewrite Hv.
    + intros ->. destruct Hs as [-> | ->]; reflexivity.
  - intros ->. reflexivity.
  - intros ->. reflexivity.
  - intros ->. reflexivity.
  - intros Hn.
    destruct (Z.eqb_spec StatusCode 429); [subst; exfalso; apply Hn; simpl; tauto|].
    destruct (Z.eqb_spec StatusCode 200); [subst; exfalso; apply Hn; simpl; tauto|].
    destruct (Z.eqb_spec StatusCode 202); [subst; exfalso; apply Hn; simpl; tauto|].
    destruct (Z.eqb_spec StatusCode 204); [subst; exfalso; apply Hn; simpl; tauto|].
    destruct (Z.eqb_spec StatusCode 404); [subst; exfalso; apply Hn; simpl; tauto|].
    reflexivity.
Qed.

(** The classifier at a 500 whose body decodes to the [error] field
    ["bad target"]. *)
Lemma doRequest_classifies_witness :
  doRequest (A := string) (fun b => Some b) None 500 "bad target"
    = ROErr (ErrMsg "[HTTP 500] bad target").
Proof.
  destruct (doRequest_classifies (A := string) (fun b => Some b) None 500 "bad target")
    as (_ & _ & _ & _ & H).
  apply H. simpl. intuition discriminate.
Defined.

(** ** Build status predicate *)

Definition active_statuses : list string :=
  ["queued"; "sentToBuilder"; "started"; "restarted"]%string.

Lemma IsBuildActive_false_iff (b : Build) :
  IsBuildActive b = false <-> In (Status b) terminal_statuses.
Proof.
  unfold IsBuildActive.
  destruct (existsb (String.eqb (Status b)) terminal_statuses) eqn:E.
  - split; [intros _ | reflexivity].
    apply existsb_exists in E as (x & Hx & Heq).
    apply String.eqb_eq in Heq. now subst.
  - split; [discriminate | intros Hin].
    assert (existsb (String.eqb (Status b)) terminal_statuses = true) as E'
      by (apply existsb_exists; exists (Status b); split; [exact Hin | apply String.eqb_refl]).
    congruence.
Qed.

(** C2: a build whose status is one of [queued], [sentToBuilder], [started],
    [restarted] is active; one whose status is [success], [failure],
    [canceled] or [unknown] is not (terminal); every status outside the
    terminal four, whatever the string, is active. *)
Theorem IsBuildActive_classification (b : Build) :
  (In (Status b) active_statuses -> IsBuildActive b = true) /\
  (In (Status b) terminal_statuses -> IsBuildActive b = false) /\
  (~ In (Status b) terminal_statuses -> IsBuildActive b = true).
Proof.
  pose proof (IsBuildActive_false_iff b) as Hiff.
  assert (Hout : ~ In (Status b) terminal_statuses -> IsBuildActive b = true).
  { intros Hn. destruct (IsBuildActive b) eqn:E; [reflexivity|].
    exfalso. apply Hn. now apply Hiff. }
  split; [|split].
  - intros Hin. apply Hout. intros Ht.
    simpl in Hin, Ht. unfold active_statuses, terminal_statuses in *. simpl in *.
    intuition congruence.
  - apply Hiff.
  - exact Hout.
Qed.

(** An unlisted status, ["building"], is active. *)
Lemma IsBuildActive_classification_witness :
  IsBuildActive (mkBuild 7 "ios" "building" "" (mkLinks None)) = true.
Proof.
  apply (IsBuildActive_classification (mkBuild 7 "ios" "building" "" (mkLinks None))).
  simpl. intuition discriminate.
Defined.

(** ** Completion monitor *)

Section MonitorFacts.
Variable UniqueId : Build -> string.
Variable fetch : nat -> string -> Z -> Build + go_error.
Variable fmt : OutputFormat.
Variable abortOnFail : bool.

Local Abbreviation poll_entry' := (poll_entry UniqueId fetch fmt abortOnFail).
Local Abbreviation tick_loop' := (tick_loop UniqueId fetch fmt abortOnFail).
Local Abbreviation tick' := (tick UniqueId fetch fmt abortOnFail).
Local Abbreviation poll' := (poll UniqueId fetch fmt abortOnFail).

(** Running the inner loop over [pre ++ post] is running it over [pre],
    then, if it went through, over [post] from index [length pre]. *)
Lemma tick_loop_app (t i : nat) (pre post : list Build) (st : mstate) :
  tick_loop' t i (pre ++ post) st =
    match tick_loop' t i pre st with
    | LContinue st' => tick_loop' t (i + length pre) post st'
    | r => r
    end.
Proof.
  revert i st. induction pre as [|b pre IH]; intros i st; simpl.
  - now rewrite Nat.add_0_r.
  - destruct (poll_entry' t i b st); try reflexivity.
    rewrite IH. now rewrite Nat.add_succ_r.
Qed.

(** C3: in any tick, when the entry [b] reached after the entries [pre]
    is still unfinished and its status fetch answers [RateLimitedError],
    the tick stops right after that one fetch (the entries [post] are not
    looked at) and the monitor goes on to its end-of-tick check and the
    next tick instead of failing; any other fetch error is returned at
    once, with no fetch after it. *)
Theorem poll_tick_rate_limit_soft (fuel t : nat) (st st1 : mstate)
    (pre post : list Build) (b : Build) :
  ms_builds st = pre ++ b :: post ->
  tick_loop' t 0 pre st = LContinue st1 ->
  finished_of st1 (UniqueId b) = false ->
  (fetch t (TargetId b) (Number b) = inr RateLimitedError ->
     let st2 := ms_log (EvPoll b) st1 in
     tick' t st = LBreak st2 /\
     poll' (S fuel) t st =
       (if Nat.eqb (ms_count st2) (length (ms_builds st2)) then PollExit st2
        else poll' fuel (S t) st2)) /\
  (forall e, fetch t (TargetId b) (Number b) = inr e -> e <> RateLimitedError ->
     tick' t st = LReturn e (ms_log (EvPoll b) st1) /\
     poll' (S fuel) t st = PollReturn e (ms_log (EvPoll b) st1)).
Proof.
  intros Hb Hpre Hfin.
  assert (Htick : tick' t st = poll_entry' t (length pre) b st1 \/
                  exists st', poll_entry' t (length pre) b st1 = LContinue st' /\
                              tick' t st = tick_loop' t (S (length pre)) post st').
  { unfold tick. rewrite Hb, tick_loop_app, Hpre. simpl.
    destruct (poll_entry' t (length pre) b st1) eqn:E; eauto. }
  assert (Hentry : forall r, fetch t (TargetId b) (Number b) = inr r ->
            poll_entry' t (length pre) b st1 =
              match r with
              | RateLimitedError => LBreak (ms_log (EvPoll b) st1)
              | _ => LReturn r (ms_log (EvPoll b) st1)
              end).
  { intros r Hr. unfold poll_entry. rewrite Hfin, Hr. destruct r; reflexivity. }
  split.
  - intros Hrl. specialize (Hentry _ Hrl). simpl in Hentry.
    destruct Htick as [Ht | (st' & Hc & _)]; [|congruence].
    rewrite Hentry in Ht. split; [exact Ht|].
    simpl. rewrite Ht. reflexivity.
  - intros e He Hne. specialize (Hentry _ He).
    assert (Hret : poll_entry' t (length pre) b st1 = LReturn e (ms_log (EvPoll b) st1))
      by (rewrite Hentry; destruct e; congruence).
    destruct Htick as [Ht | (st' & Hc & _)]; [|congruence].
    rewrite Hret in Ht. split; [exact Ht|].
    simpl. rewrite Ht. reflexivity.
Qed.

(** [st'] is a later state of the same run as [st]: the trace only grew,
    every entry polled in between was unfinished in [st], and every entry
    finished in [st] is still finished in [st']. *)
Definition extends (st st' : mstate) : Prop :=
  (exists added, ms_trace st' = ms_trace st ++ added /\
     forall x, In (EvPoll x) added -> finished_of st (UniqueId x) = false) /\
  (forall k, finished_of st k = true -> finished_of st' k = true).

Lemma extends_refl st : extends st st.
Proof.
  split; [exists []; split; [now rewrite app_nil_r | intros x []] | auto].
Qed.

Lemma extends_trans st1 st2 st3 :
  extends st1 st2 -> extends st2 st3 -> extends st1 st3.
Proof.
  intros [(n1 & H1 & P1) M1] [(n2 & H2 & P2) M2]. split.
  - exists (n1 ++ n2). split; [now rewrite H2, H1, app_assoc|].
    intros x Hx. apply in_app_or in Hx as [Hx|Hx]; [auto|].
    destruct (finished_of st1 (UniqueId x)) eqn:E; [|reflexivity].
    apply M1 in E. rewrite P2 in E by exact Hx. discriminate.
  - auto.
Qed.

Lemma extends_log st st1 ev :
  extends st st1 -> (forall x, ev = EvPoll x -> finished_of st1 (UniqueId x) = false) ->
  extends st (ms_log ev st1).
Proof.
  intros Hs Hev. eapply extends_trans; [exact Hs|]. split; [|auto].
  exists [ev]. split; [reflexivity|].
  intros x [Hx|[]]. exact (Hev x Hx).
Qed.

Lemma extends_say st st1 ev :
  extends st st1 -> (forall x, ev <> EvPoll x) -> extends st (say fmt ev st1).
Proof.
  intros Hs Hev. unfold say. destruct (is_human fmt); [|exact Hs].
  apply extends_log; [exact Hs|]. intros x ->. now destruct (Hev x).
Qed.

Lemma extends_update st st1 bs fin last n :
  extends st st1 ->
  (forall k, finished_of st1 k = true -> default false (fin !! k) = true) ->
  extends st (mkMState bs fin last n (ms_trace st1)).
Proof.
  intros [(nw & Ht & Hp) Hm] Hfin. split.
  - exists nw. split; [exact Ht|]. exact Hp.
  - intros k Hk. apply Hfin, Hm, Hk.
Qed.

Lemma default_insert_true (m : gmap string bool) (k k' : string) :
  default false (m !! k') = true -> default false (<[k := true]> m !! k') = true.
Proof.
  intros H. destruct (decide (k = k')) as [->|Hne].
  - now rewrite lookup_insert_eq.
  - now rewrite lookup_insert_ne.
Qed.

Ltac ext_solve base :=
  repeat first
    [ exact base
    | apply extends_say; [| intros ? ?; discriminate]
    | apply extends_update;
      [| intros ? ?; first [assumption | now apply default_insert_true]] ].

Lemma poll_entry_extends t i b st : extends st (loop_state (poll_entry' t i b st)).
Proof.
  unfold poll_entry. destruct (finished_of st (UniqueId b)) eqn:Hf.
  - apply extends_refl.
  - assert (Hlog : extends st (ms_log (EvPoll b) st)).
    { apply extends_log; [apply extends_refl|]. intros x [= ->]. exact Hf. }
    destruct (fetch t (TargetId b) (Number b)) as [ub | [| |m]]; cbn [loop_state];
      try exact Hlog.
    cbv beta zeta.
    destruct (negb (String.eqb _ (Status ub))); destruct (negb (IsBuildActive ub));
      try destruct (abortOnFail && _); cbn [loop_state]; ext_solve Hlog.
Qed.

Lemma tick_loop_extends t i bs st : extends st (loop_state (tick_loop' t i bs st)).
Proof.
  revert i st. induction bs as [|b bs IH]; intros i st; simpl; [apply extends_refl|].
  pose proof (poll_entry_extends t i b st) as He.
  destruct (poll_entry' t i b st) eqn:E; cbn [loop_state] in *; try exact He.
  eapply extends_trans; [exact He | apply IH].
Qed.

Lemma poll_extends fuel t st : extends st (poll_state (poll' fuel t st)).
Proof.
  revert t st. induction fuel as [|fuel IH]; intros t st; simpl; [apply extends_refl|].
  pose proof (tick_loop_extends t 0 (ms_builds st) st) as He. unfold tick.
  destruct (tick_loop' t 0 (ms_builds st) st); cbn [loop_state poll_state] in *;
    try exact He;
    destruct (Nat.eqb _ _); cbn [poll_state]; try exact He;
    (eapply extends_trans; [exact He | apply IH]).
Qed.

Lemma in_say_log ev ev' st :
  In ev' (ms_trace st) -> In ev' (ms_trace (say fmt ev st)).
Proof.
  unfold say, ms_log. destruct (is_human fmt); simpl; [|auto].
  intros H. apply in_or_app. now left.
Qed.

(** C5 (as amended): during the poll loop, an entry marked finished stays
    finished, and no entry finished at the start of a tick is polled in
    that tick or any later one; when a fetched status differs from the
    last observed one, the last observed status is updated to it, and a
    transition line (old to new) is printed in human output mode, while in
    the other output modes no transition line is ever emitted. *)
Theorem monitor_finished_and_transitions :
  (forall fuel t st k, finished_of st k = true ->
     finished_of (poll_state (poll' fuel t st)) k = true) /\
  (forall fuel t st, exists added,
     ms_trace (poll_state (poll' fuel t st)) = ms_trace st ++ added /\
     forall x, In (EvPoll x) added -> finished_of st (UniqueId x) = false) /\
  (forall t i b st ub,
     finished_of st (UniqueId b) = false ->
     fetch t (TargetId b) (Number b) = inl ub ->
     last_of st (UniqueId ub) <> Status ub ->
     ms_last (loop_state (poll_entry' t i b st)) !! UniqueId ub = Some (Status ub) /\
     (is_human fmt = true ->
        In (EvChanged (TargetId ub) (Number ub) (last_of st (UniqueId ub)) (Status ub))
           (ms_trace (loop_state (poll_entry' t i b st))))) /\
  (is_human fmt = false -> forall t i b st tid n o o',
     In (EvChanged tid n o o') (ms_trace (loop_state (poll_entry' t i b st))) ->
     In (EvChanged tid n o o') (ms_trace st)).
Proof.
  split; [|split; [|split]].
  - intros fuel t st k Hk. apply (proj2 (poll_extends fuel t st)), Hk.
  - intros fuel t st. apply (proj1 (poll_extends fuel t st)).
  - intros t i b st ub Hf Hfe Hne. unfold poll_entry. rewrite Hf, Hfe.
    cbv beta zeta.
    destruct (String.eqb (last_of _ (UniqueId ub)) (Status ub)) eqn:E.
    { exfalso. apply String.eqb_eq in E. exact (Hne E). }
    cbn [negb].
    assert (Hl : forall bs fin n tr,
               ms_last (mkMState bs fin (<[UniqueId ub := Status ub]> (ms_last st)) n tr)
                 !! UniqueId ub = Some (Status ub))
      by (intros; apply lookup_insert_eq).
    destruct (negb (IsBuildActive ub)); try destruct (abortOnFail && _);
      cbn [loop_state]; unfold say; destruct (is_human fmt) eqn:Hh;
      (split; [exact (Hl _ _ _ _) | intros Hh'; try discriminate Hh']);
      cbn [ms_trace ms_log]; rewrite ?in_app_iff; simpl; tauto.
  - intros Hh t i b st tid n o o'. unfold poll_entry.
    destruct (finished_of st (UniqueId b)); [auto|].
    destruct (fetch t (TargetId b) (Number b)) as [ub | [| |m]];
      cbn [loop_state ms_trace ms_log]; rewrite ?in_app_iff; simpl;
      try (intros [H|[H|[]]]; [auto | discriminate]).
    cbv beta zeta. unfold say. rewrite Hh.
    destruct (negb (String.eqb _ (Status ub))); destruct (negb (IsBuildActive ub));
      try destruct (abortOnFail && _); cbn [loop_state ms_trace ms_log];
      rewrite ?in_app_iff; simpl; intros [H|[H|[]]]; auto; discriminate.
Qed.

(** The set-up loop only prints: it issues no status fetch. *)
Lemma watch_init_no_poll bs st :
  match watch_init UniqueId fmt bs st with
  | inl (_, st') | inr st' => forall x, In (EvPoll x) (ms_trace st') -> In (EvPoll x) (ms_trace st)
  end.
Proof.
  revert st. induction bs as [|b bs IH]; intros st; simpl; [auto|].
  destruct (negb (IsBuildActive b)); [auto|].
  specialize (IH (say fmt (EvWatching (TargetId b) (Number b))
                    (mkMState (ms_builds st) (<[UniqueId b := false]> (ms_finished st))
                       (<[UniqueId b := Status b]> (ms_last st)) (ms_count st)
                       (ms_trace st)))).
  destruct (watch_init UniqueId fmt bs _) as [[e st']|st']; intros x Hx;
    specialize (IH x Hx); unfold say, ms_log in IH;
    destruct (is_human fmt); simpl in IH; rewrite ?in_app_iff in IH; simpl in IH;
    intuition discriminate.
Qed.

Lemma watch_init_rejects bs st b :
  In b bs -> IsBuildActive b = false ->
  exists b' st', In b' bs /\ IsBuildActive b' = false /\
    watch_init UniqueId fmt bs st = inl (ErrMsg (not_active_msg b'), st').
Proof.
  revert st. induction bs as [|c bs IH]; intros st Hin Hb; [destruct Hin|].
  simpl. destruct (IsBuildActive c) eqn:Hc; simpl.
  - destruct Hin as [->|Hin]; [congruence|].
    destruct (IH (say fmt (EvWatching (TargetId c) (Number c))
                    (mkMState (ms_builds st) (<[UniqueId c := false]> (ms_finished st))
                       (<[UniqueId c := Status c]> (ms_last st)) (ms_count st)
                       (ms_trace st))) Hin Hb) as (b' & st' & ? & ? & ?).
    exists b', st'. auto.
  - exists c, st. auto.
Qed.

(** C4: when a build of the watch set is not active (its status is
    terminal), the monitor returns the error "Build #<n> for target <t> is
    not active" for such a build before its poll loop starts: no status
    fetch is issued. *)
Theorem wait_watch_rejects_terminal (fuel : nat) (builds : list Build) (b : Build) :
  In b builds -> IsBuildActive b = false ->
  exists b', In b' builds /\ IsBuildActive b' = false /\
    fst (wait_watch UniqueId fetch fmt abortOnFail fuel builds)
      = WReturn (Some (ErrMsg (not_active_msg b'))) /\
    forall x, ~ In (EvPoll x) (snd (wait_watch UniqueId fetch fmt abortOnFail fuel builds)).
Proof.
  intros Hin Hb. destruct builds as [|c bs] eqn:Eb; [destruct Hin|].
  rewrite <- Eb in *.
  destruct (watch_init_rejects builds (mkMState builds ∅ ∅ 0 []) b Hin Hb)
    as (b' & st' & Hin' & Hb' & Hw).
  pose proof (watch_init_no_poll builds (mkMState builds ∅ ∅ 0 [])) as Hnp.
  rewrite Hw in Hnp.
  exists b'. split; [exact Hin'|]. split; [exact Hb'|].
  unfold wait_watch. rewrite Eb. rewrite <- Eb. rewrite Hw. split; [reflexivity|].
  intros x Hx. exact (Hnp x Hx).
Qed.
End MonitorFacts.

(** A concrete run: two watched builds, keyed as ["<target>#<number>"]. *)
Module Sample.
Definition uid (b : Build) : string := (TargetId b ++ "#" ++ fmt_d (Number b))%string.
Definition no_links := mkLinks None.
Definition b_ios := mkBuild 1 "ios" "queued" "" no_links.
Definition b_ios_done := mkBuild 1 "ios" "success" "abc123" no_links.
Definition b_and := mkBuild 4 "android" "started" "" no_links.
Definition b_and_failed := mkBuild 4 "android" "failure" "" no_links.

(** 429 on the first tick, then the finished builds. *)
Definition fetch_rl_then_done (t : nat) (tid : string) (n : Z) : Build + go_error :=
  match t with
  | O => inr RateLimitedError
  | S _ => if String.eqb tid "ios" then inl b_ios_done else inl b_and_failed
  end.

Definition init_state (fmt : OutputFormat) (bs : list Build) : mstate :=
  match watch_init uid fmt bs (mkMState bs ∅ ∅ 0 []) with
  | inr st => st
  | inl (_, st) => st
  end.
End Sample.

(** The scenario of the specification's tests: 429 on the first tick,
    ["success"] on the second; one transition reported, two fetches, [nil]. *)
Example wait_rate_limited_then_success :
  wait_watch Sample.uid Sample.fetch_rl_then_done OutputFormat_Human false 5 [Sample.b_ios]
  = (WReturn None,
     [EvWatching "ios" 1; EvPoll Sample.b_ios; EvPoll Sample.b_ios;
      EvChanged "ios" 1 "queued" "success"; EvFinished "ios" 1 "success"; EvComplete]).
Proof. vm_compute. reflexivity. Qed.

(** Two watched builds, the second fails, [abortOnFail]: the error is
    returned at once. *)
Example wait_abort_on_fail :
  fst (wait_watch Sample.uid Sample.fetch_rl_then_done OutputFormat_None true 5
         [Sample.b_and; Sample.b_ios])
  = WReturn (Some (ErrMsg "Aborting early, build: android #4 failed with status: failure")).
Proof. vm_compute. reflexivity. Qed.

(** The first tick of the sample run is rate limited on its first entry. *)
Lemma poll_tick_rate_limit_soft_witness :
  tick Sample.uid Sample.fetch_rl_then_done OutputFormat_Human false 0
    (Sample.init_state OutputFormat_Human [Sample.b_ios; Sample.b_and])
  = LBreak (ms_log (EvPoll Sample.b_ios)
              (Sample.init_state OutputFormat_Human [Sample.b_ios; Sample.b_and])).
Proof.
  refine (proj1 (proj1 (poll_tick_rate_limit_soft Sample.uid Sample.fetch_rl_then_done
            OutputFormat_Human false 0 0
            (Sample.init_state OutputFormat_Human [Sample.b_ios; Sample.b_and])
            (Sample.init_state OutputFormat_Human [Sample.b_ios; Sample.b_and])
            [] [Sample.b_and] Sample.b_ios _ _ _) _)).
  - vm_compute. reflexivity.
  - reflexivity.
  - vm_compute. reflexivity.
  - reflexivity.
Defined.

(** Watching a queued build and a finished one is refused before any poll. *)
Lemma wait_watch_rejects_terminal_witness :
  exists b', In b' [Sample.b_ios; Sample.b_ios_done] /\ IsBuildActive b' = false /\
    fst (wait_watch Sample.uid Sample.fetch_rl_then_done OutputFormat_Human false 5
           [Sample.b_ios; Sample.b_ios_done])
      = WReturn (Some (ErrMsg (not_active_msg b'))) /\
    forall x, ~ In (EvPoll x) (snd (wait_watch Sample.uid Sample.fetch_rl_then_done
                                      OutputFormat_Human false 5
                                      [Sample.b_ios; Sample.b_ios_done])).
Proof.
  apply (wait_watch_rejects_terminal Sample.uid Sample.fetch_rl_then_done OutputFormat_Human
           false 5 [Sample.b_ios; Sample.b_ios_done] Sample.b_ios_done).
  - simpl. tauto.
  - reflexivity.
Defined.

(** The second tick of the sample run sees [ios #1] go from [queued] to
    [success]: the change is recorded and printed in human mode. *)
Lemma monitor_finished_and_transitions_witness :
  let st := ms_log (EvPoll Sample.b_ios)
              (Sample.init_state OutputFormat_Human [Sample.b_ios]) in
  ms_last (loop_state (poll_entry Sample.uid Sample.fetch_rl_then_done OutputFormat_Human
                         false 1 0 Sample.b_ios st))
    !! Sample.uid Sample.b_ios_done = Some "success"%string /\
  (is_human OutputFormat_Human = true ->
   In (EvChanged "ios" 1 "queued" "success")
      (ms_trace (loop_state (poll_entry Sample.uid Sample.fetch_rl_then_done
                               OutputFormat_Human false 1 0 Sample.b_ios st)))).
Proof.
  intros st.
  exact (proj1 (proj2 (proj2 (monitor_finished_and_transitions Sample.uid
           Sample.fetch_rl_then_done OutputFormat_Human false)))
           1%nat 0%nat Sample.b_ios st Sample.b_ios_done
           ltac:(vm_compute; reflexivity) ltac:(reflexivity)
           ltac:(vm_compute; discriminate)).
Defined.

(** C5 fails as stated: with [--json] output the same run observes the
    change from [queued] to [success], yet its only events are the two
    status fetches; no transition notification is emitted. *)
Lemma monitor_transition_not_reported_in_json :
  Status Sample.b_ios <> Status Sample.b_ios_done /\
  wait_watch Sample.uid Sample.fetch_rl_then_done OutputFormat_JSON false 5 [Sample.b_ios]
    = (WReturn None, [EvPoll Sample.b_ios; EvPoll Sample.b_ios]).
Proof. split; [discriminate | vm_compute; reflexivity]. Qed.

(** ** Latest builds *)

Section LatestFacts.
Variable targets_resp : list BuildTarget + go_error.
Variable history_resp : string -> string -> list Build + go_error.

Definition no_enabled_with_id (ts : list BuildTarget) (id : string) : Prop :=
  forall t, In t ts -> Id t = id -> Enabled t = false.

Lemma latest_pass1_other ts m id :
  no_enabled_with_id ts id -> latest_pass1 true ts m !! id = m !! id.
Proof.
  revert m. induction ts as [|t ts IH]; intros m Hno; simpl; [reflexivity|].
  unfold skip_target. simpl.
  destruct (Enabled t) eqn:He; simpl.
  - rewrite IH by (intros t' Ht'; apply Hno; now right).
    apply lookup_insert_ne. intros Heq.
    rewrite (Hno t (or_introl eq_refl) Heq) in He. discriminate.
  - apply IH. intros t' Ht'. apply Hno. now right.
Qed.

Lemma classic_enabled ts id :
  no_enabled_with_id ts id \/ exists t, In t ts /\ Id t = id /\ Enabled t = true.
Proof.
  induction ts as [|t ts [IH | (t' & ? & ? & ?)]].
  - left. intros ? [].
  - destruct (decide (Id t = id)) as [Heq|Hne]; [destruct (Enabled t) eqn:He|].
    + right. exists t. simpl. auto.
    + left. intros t' [<-|Ht'] Hid; [exact He | exact (IH t' Ht' Hid)].
    + left. intros t' [<-|Ht'] Hid; [contradiction | exact (IH t' Ht' Hid)].
  - right. exists t'. simpl. auto.
Qed.

Lemma latest_pass2_spec ts m calls calls' m' :
  latest_pass2 history_resp true ts m calls = (calls', inl m') ->
  calls' = calls ++ map Id (List.filter Enabled ts) /\
  (forall id, no_enabled_with_id ts id -> m' !! id = m !! id) /\
  (forall t b rest, In t ts -> Enabled t = true ->
     history_resp (Id t) EmptyString = inl (b :: rest) -> m' !! Id t = Some (Some b)).
Proof.
  revert m calls. induction ts as [|t ts IH]; intros m calls H; simpl in H.
  - injection H as <- <-. simpl. rewrite app_nil_r.
    split; [reflexivity | split; [reflexivity | intros ? ? ? []]].
  - unfold skip_target in H. simpl in H. destruct (Enabled t) eqn:He; simpl in H.
    + unfold Builds_List in H.
      destruct (history_resp (Id t) EmptyString) as [entries|e] eqn:Hh; [|discriminate].
      simpl in H.
      set (m1 := match take 1 entries with
                 | b :: _ => <[Id t := Some b]> m | [] => m end) in H.
      destruct (IH m1 (calls ++ [Id t]) H) as (Hc & Ho & Hl).
      split; [|split].
      * simpl. rewrite He. simpl. rewrite Hc, <- app_assoc. reflexivity.
      * intros id Hno. rewrite Ho by (intros t' Ht'; apply Hno; now right).
        assert (Hne : Id t <> id)
          by (intros Heq; rewrite (Hno t (or_introl eq_refl) Heq) in He; discriminate).
        unfold m1. destruct (take 1 entries); [reflexivity|].
        now apply lookup_insert_ne.
      * intros t0 b rest [<-|Hin] Hen Hh0.
        -- destruct (classic_enabled ts (Id t)) as [Hno | (t' & Ht' & Hid & Hen')].
           ++ rewrite Ho by exact Hno. unfold m1.
              rewrite Hh in Hh0. injection Hh0 as ->. simpl.
              apply lookup_insert_eq.
           ++ rewrite <- Hid. apply (Hl t' b rest Ht' Hen'). now rewrite Hid.
        -- exact (Hl t0 b rest Hin Hen Hh0).
    + destruct (IH m calls H) as (Hc & Ho & Hl). split; [|split].
      * simpl. rewrite He. exact Hc.
      * intros id Hno. apply Ho. intros t' Ht'. apply Hno. now right.
      * intros t0 b rest [<-|Hin] Hen Hh0; [congruence|].
        exact (Hl t0 b rest Hin Hen Hh0).
Qed.

(** C6: [Builds_Latest] with [onlySuccess = false] and [onlyEnabled =
    true] queries the build history (limit 1, no status filter) of the
    enabled targets only, in order; an id carried by no enabled target is
    absent from the result (disabled targets take part in neither pass);
    and for every enabled target whose history starts with [b] (its last
    attempted build), the result for it is [b], whatever last successful
    build the first pass recorded. *)
Theorem Builds_Latest_enabled_attempted (targets : list BuildTarget)
    (calls : list string) (m : gmap string (option Build)) :
  targets_resp = inl targets ->
  Builds_Latest targets_resp history_resp false true = (calls, inl m) ->
  calls = map Id (List.filter Enabled targets) /\
  (forall id, no_enabled_with_id targets id -> m !! id = None) /\
  (forall t b rest, In t targets -> Enabled t = true ->
     history_resp (Id t) EmptyString = inl (b :: rest) -> m !! Id t = Some (Some b)).
Proof.
  intros Ht H. unfold Builds_Latest in H. rewrite Ht in H. simpl in H.
  destruct (latest_pass2_spec _ _ _ _ _ H) as (Hc & Ho & Hl).
  split; [exact Hc | split; [|exact Hl]].
  intros id Hno. rewrite Ho by exact Hno.
  rewrite latest_pass1_other by exact Hno. apply lookup_empty.
Qed.
End LatestFacts.

Module LatestSample.
Definition b_ios_ok := mkBuild 1 "ios" "success" "abc123" Sample.no_links.
Definition b_ios_failed := mkBuild 2 "ios" "failure" "abc124" Sample.no_links.
Definition b_and_ok := mkBuild 9 "android" "success" "abc123" Sample.no_links.
Definition targets : list BuildTarget :=
  [mkBuildTarget "ios" true [b_ios_ok]; mkBuildTarget "android" false [b_and_ok]].
Definition history (id filter : string) : list Build + go_error :=
  if String.eqb id "ios" then inl [b_ios_failed; b_ios_ok]
  else inl [b_and_ok].
Definition result : gmap string (option Build) :=
  <["ios" := Some b_ios_failed]> (<["ios" := Some b_ios_ok]> ∅).
End LatestSample.

(** An enabled target whose last success (#1) is older than its last
    attempt (#2), next to a disabled target. *)
Lemma Builds_Latest_enabled_attempted_witness :
  LatestSample.result !! "ios"%string = Some (Some LatestSample.b_ios_failed) /\
  LatestSample.result !! "android"%string = None.
Proof.
  destruct (Builds_Latest_enabled_attempted (inl LatestSample.targets) LatestSample.history
              LatestSample.targets ["ios"%string] LatestSample.result eq_refl
              ltac:(vm_compute; reflexivity)) as (_ & Hno & Hl).
  split.
  - apply (Hl (mkBuildTarget "ios" true [LatestSample.b_ios_ok]) LatestSample.b_ios_failed
             [LatestSample.b_ios_ok]); [simpl; tauto | reflexivity | reflexivity].
  - apply Hno. intros t [<-|[<-|[]]]; simpl; [discriminate | reflexivity].
Defined.

(** ** Revision matcher *)

Lemma latest_pass1_lookup (ts : list BuildTarget) (m : gmap string (option Build))
    (t : BuildTarget) :
  NoDup (map Id ts) -> In t ts -> Enabled t = true ->
  latest_pass1 true ts m !! Id t = Some (head (Builds t)).
Proof.
  revert m. induction ts as [|t' ts IH]; intros m Hnd Hin Hen; [destruct Hin|].
  simpl in Hnd. apply NoDup_cons in Hnd as [Hnot Hnd].
  simpl. unfold skip_target. simpl.
  destruct Hin as [<-|Hin].
  - rewrite Hen. simpl. rewrite latest_pass1_other.
    + apply lookup_insert_eq.
    + intros t'' Ht'' Hid. exfalso. apply Hnot.
      apply list_elem_of_In, in_map_iff. eauto.
  - destruct (Enabled t'); simpl; apply IH; auto.
Qed.

Lemma collect_fold_missing (l : list (string * option Build)) acc k :
  In (k, None) l \/ In k acc.2 ->
  In k (foldl (fun acc kv =>
                 match kv.2 with
                 | None => (acc.1, acc.2 ++ [kv.1])
                 | Some b => (acc.1 ++ [b], acc.2)
                 end) acc l).2.
Proof.
  revert acc. induction l as [|[k' v] l IH]; intros acc H; simpl.
  - destruct H as [[]|H]; exact H.
  - apply IH. destruct H as [[[= -> ->]|H]|H]; [| now left |].
    + right. simpl. apply in_or_app. right. now left.
    + right. destruct v; simpl; [exact H|]. apply in_or_app. now left.
Qed.

(** C7 (as amended): a build matches exactly when its status is
    ["success"] and its last built revision equals the head revision as a
    whole string; a build that is not successful never matches; when the
    call returns, its result is true exactly when no target was reported
    missing and every considered build matches; and an enabled target with
    no successful build is reported missing, both when all targets are
    checked (whatever the build number) and when it is the one target asked
    for without a positive build number, as the default [--build -1]
    (target ids being distinct). *)
Theorem Git_BuildsMatchHead_amended :
  (forall head b, check_build head b = MatchesHead <->
                  Status b = "success"%string /\ LastBuiltRevision b = head) /\
  (forall head b, Status b <> "success"%string -> check_build head b = NotSuccessful) /\
  (forall fmt head missing builds r,
     check_all fmt head missing builds = MROk r ->
     (r = true <-> missing = [] /\ Forall (fun b => check_build head b = MatchesHead) builds)) /\
  (forall targets_resp history_resp status_resp targets t buildTargetId buildNumber all
          builds missing,
     targets_resp = inl targets -> NoDup (map Id targets) -> In t targets ->
     Enabled t = true -> Builds t = [] ->
     (all = true \/ (buildTargetId = Id t /\ buildNumber <= 0)) ->
     collect targets_resp history_resp status_resp buildTargetId buildNumber all
       = inl (builds, missing) ->
     In (Id t) missing).
Proof.
  split; [|split; [|split]].
  - intros head b. unfold check_build.
    destruct (String.eqb_spec (Status b) "success"); simpl;
      [|split; [discriminate | intros []; contradiction]].
    destruct (String.eqb_spec (LastBuiltRevision b) head); simpl;
      [split; auto | split; [discriminate | intros []; contradiction]].
  - intros head b Hs. unfold check_build.
    destruct (String.eqb_spec (Status b) "success"); [contradiction | reflexivity].
  - intros fmt head missing builds r. unfold check_all.
    assert (Hgen : forall bs a r, check_builds fmt head bs a = MROk r ->
              (r = true <-> a = true /\ Forall (fun b => check_build head b = MatchesHead) bs)).
    { induction bs as [|b bs IH]; intros a r0 H; simpl in H.
      - injection H as <-. split; [auto | tauto].
      - destruct (check_build head b) eqn:Hc.
        + rewrite (IH _ _ H). split; [intros [[=] _] | intros [_ HF]].
          inversion HF; congruence.
        + destruct (mismatch_print_panics fmt head b); [discriminate|].
          rewrite (IH _ _ H). split; [intros [[=] _] | intros [_ HF]].
          inversion HF; congruence.
        + rewrite (IH _ _ H). split.
          * intros [-> HF]. split; [reflexivity | constructor; assumption].
          * intros [-> HF]. inversion HF; auto. }
    intros H. rewrite (Hgen _ _ _ H).
    destruct missing; [tauto | split; intros [[=] _]].
  - intros targets_resp history_resp status_resp targets t buildTargetId buildNumber all
      builds missing Ht Hnd Hin Hen Hb Hmode H.
    pose proof (latest_pass1_lookup targets ∅ t Hnd Hin Hen) as Hl.
    rewrite Hb in Hl. simpl in Hl.
    unfold collect in H. destruct all.
    + unfold Builds_Latest in H. rewrite Ht in H. simpl in H.
      injection H as H. change missing with (builds, missing).2. rewrite <- H.
      apply collect_fold_missing. left.
      apply list_elem_of_In, elem_of_map_to_list. exact Hl.
    + destruct Hmode as [[=] | [-> Hn]].
      rewrite (proj2 (Z.ltb_ge 0 buildNumber) Hn) in H.
      unfold Builds_Latest in H. rewrite Ht in H. simpl in H.
      rewrite Hl in H. injection H as _ <-. now left.
Qed.

Module MatchSample.
Definition rev_head := "abc123abc123abc123abc123abc123abc123abc1"%string.
Definition ios_ok := mkBuild 1 "ios" "success" rev_head Sample.no_links.
Definition targets_missing : list BuildTarget :=
  [mkBuildTarget "ios" true [ios_ok]; mkBuildTarget "android" true []].
Definition targets_disabled : list BuildTarget :=
  [mkBuildTarget "ios" true [ios_ok]; mkBuildTarget "android" false []].
Definition no_history (id f : string) : list Build + go_error := inl [].
Definition no_status (id : string) (n : Z) : Build + go_error := inr ResourceNotFoundError.
End MatchSample.

(** Checking [android], enabled and never successful, with the default
    build number [-1]. *)
Lemma Git_BuildsMatchHead_amended_witness :
  In (Id (mkBuildTarget "android" true [])) ["android"%string].
Proof.
  destruct Git_BuildsMatchHead_amended as (_ & _ & _ & H).
  refine (H (inl MatchSample.targets_missing) MatchSample.no_history MatchSample.no_status
           MatchSample.targets_missing (mkBuildTarget "android" true []) "android" (-1) false
           [] ["android"%string] eq_refl _ _ eq_refl eq_refl
           (or_intror (conj eq_refl _)) _).
  - clear H. apply (bool_decide_unpack _). vm_compute. exact I.
  - clear H. simpl. tauto.
  - clear H. lia.
  - clear H. vm_compute. reflexivity.
Defined.

(** C7 fails as stated: a target with no successful build that is disabled
    is not looked at, so it is not reported missing, and checking all
    targets returns true. *)
Lemma Git_BuildsMatchHead_disabled_not_missing :
  Builds (mkBuildTarget "android" false []) = [] /\
  collect (inl MatchSample.targets_disabled) MatchSample.no_history MatchSample.no_status
    EmptyString 0 true = inl ([MatchSample.ios_ok], []) /\
  Git_BuildsMatchHead OutputFormat_Human MatchSample.rev_head
    (inl MatchSample.targets_disabled) MatchSample.no_history MatchSample.no_status
    EmptyString 0 true = MROk true.
Proof. split; [reflexivity | split; vm_compute; reflexivity]. Qed.

(** ** Artifact retriever *)

Section DownloadFacts.
Variable plat : platform.
Variable stat : string -> stat_result.
Variable grab : string -> transfer.
Variable url_filename : string -> string + go_error.
Variable join : string -> string -> string.
Variable temp_name : string -> string.
Variable extract : string -> string -> fs -> fs * option go_error.
Variable strings_ToLower : string -> string.
Variable create_err tempfile_err : string -> option go_error.

Local Abbreviation Builds_Download' :=
  (Builds_Download plat stat grab url_filename join temp_name extract strings_ToLower
     create_err tempfile_err).
Local Abbreviation download_output' :=
  (download_output plat grab url_filename join temp_name extract create_err tempfile_err).
Local Abbreviation download_to' :=
  (download_to plat grab url_filename join temp_name extract).

Definition out_dir (outputDir : string) : string :=
  if String.eqb outputDir EmptyString then "."%string else outputDir.

(** Once the build is successful, has a link, and the unzip check passed,
    the call is decided by [os.Stat] of the destination alone. *)
Lemma Builds_Download_after_checks build outputDir unzip f link :
  Status build = "success"%string -> DownloadPrimary (build_Links build) = Some link ->
  (unzip = false \/ strings_ToLower (link_MetaType link) = "zip"%string) ->
  Builds_Download' build outputDir unzip f =
    match stat (out_dir outputDir) with
    | inl true => download_output' link (out_dir outputDir) unzip f
    | inl false | inr ErrNotExist =>
        (DErr (ErrMsg (not_dir_msg (out_dir outputDir))), f, [])
    | inr (ErrStatOther _) => (DPanic, f, [])
    end.
Proof.
  intros Hs Hl Hz. unfold Builds_Download. rewrite Hs, Hl. simpl.
  assert (Hz' : unzip && negb (String.eqb (strings_ToLower (link_MetaType link)) "zip") = false).
  { destruct Hz as [-> | ->]; [reflexivity|]. now rewrite andb_false_r. }
  rewrite Hz'. fold (out_dir outputDir).
  destruct (stat (out_dir outputDir)) as [[|]|[|m]]; reflexivity.
Qed.

(** C8: before any file is created or any transfer is made (the file
    system is untouched and no event happens), [Builds_Download] refuses,
    in this order and each with its own message: a build whose status is
    not ["success"]; a build without a download link; unzipping a link
    whose declared type, lower-cased by [strings.ToLower], is not ["zip"],
    so every type that is not an archive; and a destination that does not
    exist or is not a directory. *)
Theorem Builds_Download_rejects_early build outputDir unzip f :
  (Status build <> "success"%string ->
     Builds_Download' build outputDir unzip f =
       (DErr (ErrMsg ("Cannot download build, status is '" ++ Status build ++ "'")), f, [])) /\
  (Status build = "success"%string -> DownloadPrimary (build_Links build) = None ->
     Builds_Download' build outputDir unzip f =
       (DErr (ErrMsg "Missing download link for build"), f, [])) /\
  (forall link, Status build = "success"%string ->
     DownloadPrimary (build_Links build) = Some link -> unzip = true ->
     strings_ToLower (link_MetaType link) <> "zip"%string ->
     Builds_Download' build outputDir unzip f =
       (DErr (ErrMsg ("Cannot unzip build, filetype is " ++ strings_ToLower (link_MetaType link))),
        f, [])) /\
  (forall link, Status build = "success"%string ->
     DownloadPrimary (build_Links build) = Some link ->
     (unzip = false \/ strings_ToLower (link_MetaType link) = "zip"%string) ->
     (stat (out_dir outputDir) = inr ErrNotExist \/ stat (out_dir outputDir) = inl false) ->
     Builds_Download' build outputDir unzip f =
       (DErr (ErrMsg (not_dir_msg (out_dir outputDir))), f, [])) /\
  (forall s m t d,
     ("Cannot download build, status is '" ++ s ++ "'")%string <> "Missing download link for build"%string /\
     ("Cannot download build, status is '" ++ s ++ "'")%string <> ("Cannot unzip build, filetype is " ++ t)%string /\
     ("Cannot download build, status is '" ++ s ++ "'")%string <> not_dir_msg d /\
     "Missing download link for build"%string <> ("Cannot unzip build, filetype is " ++ t)%string /\
     "Missing download link for build"%string <> not_dir_msg d /\
     ("Cannot unzip build, filetype is " ++ m)%string <> not_dir_msg d).
Proof.
  split; [|split; [|split; [|split]]].
  - intros Hs. unfold Builds_Download.
    destruct (String.eqb_spec (Status build) "success"); [contradiction | reflexivity].
  - intros Hs Hl. unfold Builds_Download. rewrite Hs, Hl. reflexivity.
  - intros link Hs Hl -> Ht. unfold Builds_Download. rewrite Hs, Hl. simpl.
    destruct (String.eqb_spec (strings_ToLower (link_MetaType link)) "zip"); [contradiction|].
    reflexivity.
  - intros link Hs Hl Hz Hst.
    rewrite (Builds_Download_after_checks build outputDir unzip f link Hs Hl Hz).
    destruct Hst as [-> | ->]; reflexivity.
  - intros s m t d. unfold not_dir_msg. simpl.
    repeat split; discriminate.
Qed.

(** C10: past the build checks, a stat error other than "does not
    exist" makes [!outputDirInfo.IsDir()] run on a nil [FileInfo] and the
    call panics; so the call ends in the "not a directory or does not
    exist" error exactly when the destination is missing or not a
    directory, and the branch returning "Error stat'ing directory" is
    never taken. *)
Theorem Builds_Download_stat_branch_unreachable build outputDir unzip f link :
  Status build = "success"%string -> DownloadPrimary (build_Links build) = Some link ->
  (unzip = false \/ strings_ToLower (link_MetaType link) = "zip"%string) ->
  (forall msg, stat (out_dir outputDir) = inr (ErrStatOther msg) ->
     Builds_Download' build outputDir unzip f = (DPanic, f, [])) /\
  (stat (out_dir outputDir) = inr ErrNotExist \/ stat (out_dir outputDir) = inl false ->
     Builds_Download' build outputDir unzip f =
       (DErr (ErrMsg (not_dir_msg (out_dir outputDir))), f, [])) /\
  (stat (out_dir outputDir) = inl true ->
     Builds_Download' build outputDir unzip f =
       download_output' link (out_dir outputDir) unzip f).
Proof.
  intros Hs Hl Hz.
  rewrite (Builds_Download_after_checks build outputDir unzip f link Hs Hl Hz).
  split; [|split].
  - intros msg ->. reflexivity.
  - intros [-> | ->]; reflexivity.
  - intros ->. reflexivity.
Qed.

(** The deferred calls pending when the transfer fails, in the order they
    run: [os.Remove] first, then [file.Close()] (last pushed runs first),
    although the comment in the code says the removal should come after
    the close. *)
Lemma download_to_transfer_failure (link : Link) (outputDir : string) (unzip : bool)
    (f : fs) (filename : string) (f' : fs) (e : go_error) :
  url_filename (link_Href link) = inl filename ->
  let name := if unzip then temp_name filename else join outputDir filename in
  grabHttpFile grab (link_Href link) name (os_Create name f) = (f', Some e) ->
  download_to' link outputDir unzip f =
    (DErr e, run_defers plat [DRemove name; DClose name] f',
     [EvCreate name; EvTransfer (link_Href link)]).
Proof.
  intros Hu name Hg. unfold download_to. rewrite Hu. fold name. rewrite Hg. reflexivity.
Qed.

End DownloadFacts.

(** After a failed [grabHttpFile] the file is still there and still
    open. *)
Lemma grabHttpFile_failure_open (grab : string -> transfer) (href name : string) (f f' : fs) (e : go_error) :
  grabHttpFile grab href name (os_Create name f) = (f', Some e) ->
  name ∈ fs_open f' /\ is_Some (fs_files f' !! name).
Proof.
  assert (Hc : name ∈ fs_open (os_Create name f) /\ is_Some (fs_files (os_Create name f) !! name)).
  { unfold os_Create. simpl. split; [set_solver | rewrite lookup_insert_eq; eauto]. }
  assert (Hw : forall d, name ∈ fs_open (write_file name d (os_Create name f)) /\
                 is_Some (fs_files (write_file name d (os_Create name f)) !! name)).
  { intros d. unfold write_file. simpl. split; [apply Hc | rewrite lookup_insert_eq; eauto]. }
  unfold grabHttpFile. destruct (grab href) as [msg | code body cerr].
  - intros [= <- _]. exact Hc.
  - destruct (negb (code =? 200)).
    + intros [= <- _]. exact Hc.
    + destruct cerr; [intros [= <- _]; apply Hw | discriminate].
Qed.
(** On a POSIX host the removal of the still-open file succeeds: after a
    failed transfer nothing is left at the file's path. *)
Lemma download_failure_cleans_up_posix grab url_filename join temp_name extract
    (link : Link) (outputDir : string) (unzip : bool) (f : fs) (filename : string)
    (f' : fs) (e : go_error) :
  url_filename (link_Href link) = inl filename ->
  let name := if unzip then temp_name filename else join outputDir filename in
  grabHttpFile grab (link_Href link) name (os_Create name f) = (f', Some e) ->
  fs_files (snd (fst (download_to Posix grab url_filename join temp_name extract
                        link outputDir unzip f))) !! name = None.
Proof.
  intros Hu name Hg.
  rewrite (download_to_transfer_failure Posix grab url_filename join temp_name extract
             link outputDir unzip f filename f' e Hu Hg).
  simpl. apply lookup_delete_eq.
Qed.

(** On a Windows host [os.Remove] runs while the file is still open, fails
    (its error is dropped), and the file stays at its path. *)
Lemma download_failure_leaves_file_windows grab url_filename join temp_name extract
    (link : Link) (outputDir : string) (unzip : bool) (f : fs) (filename : string)
    (f' : fs) (e : go_error) :
  url_filename (link_Href link) = inl filename ->
  let name := if unzip then temp_name filename else join outputDir filename in
  grabHttpFile grab (link_Href link) name (os_Create name f) = (f', Some e) ->
  is_Some (fs_files (snd (fst (download_to Windows grab url_filename join temp_name extract
                                 link outputDir unzip f))) !! name).
Proof.
  intros Hu name Hg.
  destruct (grabHttpFile_failure_open grab _ _ _ _ _ Hg) as [Hopen Hfile].
  rewrite (download_to_transfer_failure Windows grab url_filename join temp_name extract
             link outputDir unzip f filename f' e Hu Hg).
  simpl. rewrite bool_decide_true by exact Hopen. exact Hfile.
Qed.

Module DownloadSample.
Definition link := mkLink "https://cdn.example/ios/game.ipa?sig=x" "ipa".
Definition zip_link := mkLink "https://cdn.example/ios/game.zip?sig=x" "ZIP".
Definition build := mkBuild 12 "ios" "success" "abc123" (mkLinks (Some link)).
Definition zip_build := mkBuild 13 "ios" "success" "abc123" (mkLinks (Some zip_link)).
Definition stat (p : string) : stat_result :=
  if String.eqb p "builds" then inl true
  else if String.eqb p "locked" then inr (ErrStatOther "permission denied")
  else inr ErrNotExist.
(** A 200 whose stream breaks after some bytes. *)
Definition grab_broken (href : string) : transfer :=
  Response 200 "partial-bytes" (Some "unexpected EOF"%string).
Definition url_filename (href : string) : string + go_error :=
  inl (if String.eqb href (link_Href zip_link) then "game.zip" else "game.ipa")%string.
Definition join (d n : string) : string := (d ++ "/" ++ n)%string.
Definition temp_name (n : string) : string := ("/tmp/" ++ n ++ "123")%string.
Definition extract (archive dir : string) (f : fs) : fs * option go_error := (f, None).
Definition empty_fs := mkFs ∅ ∅.
(** [strings.ToLower] on a string of ASCII bytes, its fast path: [A]-[Z]
    become [a]-[z]. The samples' types are ASCII. *)
Definition ToLower (s : string) : string :=
  string_of_list_ascii (List.map (fun c =>
    let n := nat_of_ascii c in
    if ((65 <=? n) && (n <=? 90))%nat then ascii_of_nat (n + 32) else c)
    (list_ascii_of_string s)).
(** Every file can be created. *)
Definition created (name : string) : option go_error := None.
End DownloadSample.

(** C9 (the code's defect): on Windows, a download of [ios #12] into
    [builds] whose stream breaks after some bytes returns the error but
    leaves the partial file [builds/game.ipa] on disk: the deferred
    [os.Remove] runs before the deferred [file.Close()], while the file is
    still open, and its failure is ignored. *)
Theorem Builds_Download_windows_leaves_partial_file :
  Builds_Download Windows DownloadSample.stat DownloadSample.grab_broken
    DownloadSample.url_filename DownloadSample.join DownloadSample.temp_name
    DownloadSample.extract DownloadSample.ToLower DownloadSample.created
    DownloadSample.created DownloadSample.build "builds" false DownloadSample.empty_fs
  = (DErr (ErrMsg "unexpected EOF"),
     mkFs {[ "builds/game.ipa"%string := "partial-bytes"%string ]} ∅,
     [EvCreate "builds/game.ipa"; EvTransfer (link_Href DownloadSample.link)]).
Proof. vm_compute. reflexivity. Qed.

(** The same call on Linux or macOS leaves nothing behind. *)
Example Builds_Download_posix_cleans_up :
  snd (fst (Builds_Download Posix DownloadSample.stat DownloadSample.grab_broken
    DownloadSample.url_filename DownloadSample.join DownloadSample.temp_name
    DownloadSample.extract DownloadSample.ToLower DownloadSample.created
    DownloadSample.created DownloadSample.build "builds" false DownloadSample.empty_fs))
  = mkFs ∅ ∅.
Proof. vm_compute. reflexivity. Qed.

(** Unzipping an [ipa] link is refused before anything is created. *)
Lemma Builds_Download_rejects_early_witness :
  Builds_Download Posix DownloadSample.stat DownloadSample.grab_broken
    DownloadSample.url_filename DownloadSample.join DownloadSample.temp_name
    DownloadSample.extract DownloadSample.ToLower DownloadSample.created
    DownloadSample.created DownloadSample.build "builds" true DownloadSample.empty_fs
  = (DErr (ErrMsg ("Cannot unzip build, filetype is " ++ DownloadSample.ToLower "ipa")),
     DownloadSample.empty_fs, []).
Proof.
  destruct (Builds_Download_rejects_early Posix DownloadSample.stat DownloadSample.grab_broken
              DownloadSample.url_filename DownloadSample.join DownloadSample.temp_name
              DownloadSample.extract DownloadSample.ToLower DownloadSample.created
              DownloadSample.created DownloadSample.build "builds" true
              DownloadSample.empty_fs) as (_ & _ & H & _).
  apply (H DownloadSample.link); [reflexivity | reflexivity | reflexivity |].
  vm_compute. discriminate.
Defined.

(** A destination whose [os.Stat] fails with "permission denied" makes the
    call panic. *)
Lemma Builds_Download_stat_branch_unreachable_witness :
  Builds_Download Posix DownloadSample.stat DownloadSample.grab_broken
    DownloadSample.url_filename DownloadSample.join DownloadSample.temp_name
    DownloadSample.extract DownloadSample.ToLower DownloadSample.created
    DownloadSample.created DownloadSample.zip_build "locked" true DownloadSample.empty_fs
  = (DPanic, DownloadSample.empty_fs, []).
Proof.
  apply (proj1 (Builds_Download_stat_branch_unreachable Posix DownloadSample.stat
           DownloadSample.grab_broken DownloadSample.url_filename DownloadSample.join
           DownloadSample.temp_name DownloadSample.extract DownloadSample.ToLower
           DownloadSample.created DownloadSample.created DownloadSample.zip_build
           "locked" true DownloadSample.empty_fs DownloadSample.zip_link
           eq_refl eq_refl
           (or_intror (eq_refl : DownloadSample.ToLower "ZIP" = "zip"%string)))
           "permission denied"%string).
  reflexivity.
Defined.

(* ========================================================================= *)
(** * Properties of the other commands *)

(** ** Starting and cancelling builds *)

(** [Builds_Start] after the [POST]: a 204 reply, which decodes nothing,
    and an empty list both give ["No builds started..."]; otherwise the
    first attempt decides alone: its [Error], when not empty, becomes the
    returned error, else the attempt is returned, whatever the later
    attempts carry. *)
Theorem Builds_Start_first_attempt (errorf : string -> string)
    (decode_errorMessage : string -> option string)
    (decode : string -> option (list BuildAttempt)) (StatusCode : Z) (body : string) :
  (StatusCode = 204 ->
     Builds_Start errorf (doRequest decode_errorMessage (Some decode) StatusCode body)
     = CErr (ErrMsg "No builds started...")) /\
  ((StatusCode = 200 \/ StatusCode = 202) ->
     (decode body = Some [] ->
        Builds_Start errorf (doRequest decode_errorMessage (Some decode) StatusCode body)
        = CErr (ErrMsg "No builds started...")) /\
     (forall a rest, decode body = Some (a :: rest) ->
        (attempt_Error a = EmptyString ->
           Builds_Start errorf (doRequest decode_errorMessage (Some decode) StatusCode body)
           = COk a) /\
        (attempt_Error a <> EmptyString ->
           Builds_Start errorf (doRequest decode_errorMessage (Some decode) StatusCode body)
           = CErr (ErrMsg (errorf (attempt_Error a)))))).
Proof.
  split.
  - intros ->. reflexivity.
  - intros Hc. assert (Hd : doRequest decode_errorMessage (Some decode) StatusCode body
                           = match decode body with Some v => ROk (Some v) | None => ROFatal end).
    { unfold doRequest. destruct Hc as [-> | ->]; reflexivity. }
    rewrite Hd. split.
    + intros ->. reflexivity.
    + intros a rest ->. simpl. split.
      * intros ->. reflexivity.
      * intros Hne. destruct (attempt_Error a) as [|c s]; [contradiction|]. reflexivity.
Qed.

(** [Builds_StartAll] succeeds with every attempt of a non-empty answer,
    the failed ones included: a per-target [Error] never makes it fail. *)
Theorem Builds_StartAll_returns_every_attempt (decode_errorMessage : string -> option string)
    (decode : string -> option (list BuildAttempt)) (StatusCode : Z) (body : string)
    (entries : list BuildAttempt) :
  (StatusCode = 200 \/ StatusCode = 202) -> decode body = Some entries -> entries <> [] ->
  Builds_StartAll (doRequest decode_errorMessage (Some decode) StatusCode body) = COk entries.
Proof.
  intros Hc Hd Hne.
  assert (H : doRequest decode_errorMessage (Some decode) StatusCode body = ROk (Some entries)).
  { unfold doRequest. rewrite Hd. destruct Hc as [-> | ->]; reflexivity. }
  rewrite H. simpl. destruct entries; [contradiction | reflexivity].
Qed.

Ltac cancel_case :=
  repeat split; intros;
  repeat match goal with H : _ \/ _ |- _ => destruct H end;
  try discriminate; try reflexivity; try lia.

(** Once the request is built, the answer never makes [Builds_Cancel]
    exit or panic. *)
Lemma Builds_Cancel_response (decode_errorMessage : string -> option string)
    (buildTargetId : string) (buildNumber StatusCode : Z) (body : string) :
  let r := Builds_Cancel buildTargetId buildNumber
             (doRequest (A := unit) decode_errorMessage None StatusCode body) in
  r <> CFatal /\ r <> CPanic /\
  (StatusCode = 404 ->
     r = CErr (ErrMsg ("Cannot find " ++ buildTargetId ++ " build #" ++ fmt_d buildNumber))) /\
  (StatusCode = 429 -> r = CErr RateLimitedError) /\
  (r = COk tt <-> StatusCode = 200 \/ StatusCode = 202 \/ StatusCode = 204).
Proof.
  cbv zeta. unfold Builds_Cancel, doRequest.
  destruct (Z.eqb_spec StatusCode 429) as [->|H429]; [simpl; cancel_case|].
  destruct (Z.eqb_spec StatusCode 200) as [->|H200]; [simpl; cancel_case|].
  destruct (Z.eqb_spec StatusCode 202) as [->|H202]; [simpl; cancel_case|].
  destruct (Z.eqb_spec StatusCode 204) as [->|H204]; [simpl; cancel_case|].
  destruct (Z.eqb_spec StatusCode 404) as [->|H404]; simpl; cancel_case.
Qed.

(** [Builds_Cancel] never panics, and exits the process exactly when
    [http.NewRequest] rejects the request's URL (in [buildRequest]). Once
    the request is built: a 404 becomes ["Cannot find <id> build #<n>"], a
    429 stays [RateLimitedError], and the call succeeds exactly on 200, 202
    and 204. *)
Theorem Builds_Cancel_outcomes (url_ok : string -> bool) (OrgId ProjectId : string)
    (decode_errorMessage : string -> option string)
    (buildTargetId : string) (buildNumber StatusCode : Z) (body : string) :
  let u := api_url OrgId ProjectId
             ("buildtargets/" ++ buildTargetId ++ "/builds/" ++ fmt_d buildNumber) in
  let r := Builds_Cancel_call url_ok OrgId ProjectId buildTargetId buildNumber
             (doRequest (A := unit) decode_errorMessage None StatusCode body) in
  r <> CPanic /\
  (r = CFatal <-> url_ok u = false) /\
  (url_ok u = true ->
     (StatusCode = 404 ->
        r = CErr (ErrMsg ("Cannot find " ++ buildTargetId ++ " build #" ++ fmt_d buildNumber))) /\
     (StatusCode = 429 -> r = CErr RateLimitedError) /\
     (r = COk tt <-> StatusCode = 200 \/ StatusCode = 202 \/ StatusCode = 204)).
Proof.
  cbv zeta. unfold Builds_Cancel_call, buildRequest. cbv zeta.
  destruct (Builds_Cancel_response decode_errorMessage buildTargetId buildNumber StatusCode body)
    as (Hf & Hp & H404 & H429 & Hok).
  destruct (url_ok _) eqn:E.
  - split; [exact Hp|]. split; [split; [intros H; contradiction | discriminate]|].
    intros _. auto.
  - split; [discriminate|]. split; [split; reflexivity|]. discriminate.
Qed.

Definition cancel_keep (buildTargetId : string) (t : BuildTarget) : bool :=
  negb ((0 <? String.length buildTargetId)%nat && negb (String.eqb buildTargetId (Id t))).

Lemma cancel_targets_spec (cancel_resp : string -> option go_error) (buildTargetId : string)
    (ts : list BuildTarget) (calls0 calls : list string) (r : option go_error) :
  cancel_targets cancel_resp buildTargetId ts calls0 = (calls, r) ->
  let sel := map Id (List.filter (cancel_keep buildTargetId) ts) in
  (r = None -> calls = calls0 ++ sel /\ Forall (fun i => cancel_resp i = None) sel) /\
  (forall e, r = Some e -> exists pre i post, sel = pre ++ i :: post /\
     calls = calls0 ++ pre ++ [i] /\ cancel_resp i = Some e /\
     Forall (fun j => cancel_resp j = None) pre).
Proof.
  revert calls0. induction ts as [|t ts IH]; intros calls0 H sel; simpl in H.
  - injection H as <- <-. split; [intros _; subst sel; simpl; rewrite app_nil_r; auto|].
    intros e [=].
  - subst sel. simpl.
    replace ((0 <? String.length buildTargetId)%nat && negb (String.eqb buildTargetId (Id t)))
      with (negb (cancel_keep buildTargetId t)) in H
      by (unfold cancel_keep; now rewrite negb_involutive).
    destruct (cancel_keep buildTargetId t); simpl in H |- *; [|exact (IH calls0 H)].
    destruct (cancel_resp (Id t)) as [e0|] eqn:Hc.
    + injection H as <- <-. split; [discriminate|].
      intros e [= <-]. exists [], (Id t), (map Id (List.filter (cancel_keep buildTargetId) ts)).
      simpl. auto.
    + destruct (IH _ H) as [Hn Hs]. split.
      * intros Hr. destruct (Hn Hr) as [-> HF]. rewrite <- app_assoc. simpl.
        split; [reflexivity | constructor; assumption].
      * intros e Hr. destruct (Hs e Hr) as (pre & i & post & Hsel & Hcalls & Hi & HF).
        exists (Id t :: pre), i, post. rewrite Hsel, Hcalls, <- app_assoc. simpl.
        split; [reflexivity | split; [reflexivity | split; [exact Hi | constructor; assumption]]].
Qed.

Lemma cancel_keep_empty (t : BuildTarget) : cancel_keep EmptyString t = true.
Proof. reflexivity. Qed.

Lemma cancel_keep_id (buildTargetId : string) (t : BuildTarget) :
  buildTargetId <> EmptyString ->
  cancel_keep buildTargetId t = String.eqb buildTargetId (Id t).
Proof.
  intros Hne. unfold cancel_keep.
  destruct buildTargetId as [|c s]; [contradiction|].
  change (negb (true && negb (String.eqb (String c s) (Id t))) = String.eqb (String c s) (Id t)).
  destruct (String.eqb (String c s) (Id t)); reflexivity.
Qed.

(** [Builds_CancelAll] sends one [DELETE] per target, in the listing's
    order, for every target (enabled or not) when no id is given, and only
    for the targets carrying the id otherwise; it stops at the first
    failing request, which is the last one sent, and returns its error; it
    returns [nil] only when every selected target was cancelled. *)
Theorem Builds_CancelAll_requests (targets_list : list BuildTarget + go_error)
    (cancel_resp : string -> option go_error) (buildTargetId : string)
    (targets : list BuildTarget) (calls : list string) (r : option go_error) :
  targets_list = inl targets ->
  Builds_CancelAll targets_list cancel_resp buildTargetId = Some (calls, r) ->
  let sel := map Id (if String.eqb buildTargetId EmptyString then targets
                     else List.filter (fun t => String.eqb buildTargetId (Id t)) targets) in
  (r = None -> calls = sel /\ Forall (fun i => cancel_resp i = None) calls) /\
  (forall e, r = Some e -> exists pre i post, sel = pre ++ i :: post /\
     calls = pre ++ [i] /\ cancel_resp i = Some e /\
     Forall (fun j => cancel_resp j = None) pre).
Proof.
  intros Ht H. unfold Builds_CancelAll in H. rewrite Ht in H. injection H as H.
  destruct (cancel_targets_spec _ _ _ _ _ _ H) as [Hn Hs].
  assert (Hsel : map Id (List.filter (cancel_keep buildTargetId) targets) =
                 map Id (if String.eqb buildTargetId EmptyString then targets
                         else List.filter (fun t => String.eqb buildTargetId (Id t)) targets)).
  { destruct (String.eqb_spec buildTargetId EmptyString) as [->|Hne].
    - simpl. f_equal. clear Hn Hs H Ht.
      induction targets as [|t ts IH]; [reflexivity|].
      simpl. now rewrite IH.
    - f_equal. apply List.filter_ext. intros t. now apply cancel_keep_id. }
  cbv zeta. rewrite <- Hsel. split.
  - intros Hr. destruct (Hn Hr) as [-> HF]. simpl. auto.
  - intros e Hr. exact (Hs e Hr).
Qed.

(** [Builds_CancelAll] for an id that no target carries sends nothing and
    returns [nil]. *)
Theorem Builds_CancelAll_unknown_id (targets_list : list BuildTarget + go_error)
    (cancel_resp : string -> option go_error) (buildTargetId : string)
    (targets : list BuildTarget) :
  targets_list = inl targets -> buildTargetId <> EmptyString ->
  Forall (fun t => Id t <> buildTargetId) targets ->
  Builds_CancelAll targets_list cancel_resp buildTargetId = Some ([], None).
Proof.
  intros Ht Hne HF. unfold Builds_CancelAll. rewrite Ht. f_equal. clear Ht.
  induction HF as [|t ts Hid HF IH]; [reflexivity|].
  assert (Hk : cancel_keep buildTargetId t = false).
  { rewrite (cancel_keep_id _ _ Hne). apply String.eqb_neq. congruence. }
  unfold cancel_keep in Hk. simpl.
  destruct ((0 <? String.length buildTargetId)%nat && negb (String.eqb buildTargetId (Id t)));
    [exact IH | discriminate].
Qed.

(** ** Listing builds *)

Lemma foldl_insert_self_lookup (l : list string) (m : gmap string string) (k : string) :
  foldl (fun m p => <[p := p]> m) m l !! k = if bool_decide (k ∈ l) then Some k else m !! k.
Proof.
  revert m. induction l as [|p l IH]; intros m; simpl; [reflexivity|].
  rewrite IH. destruct (decide (k ∈ l)) as [Hin|Hnin].
  - rewrite !bool_decide_eq_true_2 by set_solver. reflexivity.
  - rewrite (bool_decide_eq_false_2 (k ∈ l)) by exact Hnin.
    destruct (decide (k = p)) as [->|Hne].
    + rewrite lookup_insert_eq, bool_decide_eq_true_2 by set_solver. reflexivity.
    + rewrite lookup_insert_ne by congruence.
      rewrite bool_decide_eq_false_2 by set_solver. reflexivity.
Qed.

Lemma platformShorthand_lookup (p : string) :
  platformShorthand !! p =
    if bool_decide (p ∈ validPlatforms) then Some p
    else (list_to_map platformShorthand_literal : gmap string string) !! p.
Proof. unfold platformShorthand. apply foldl_insert_self_lookup. Qed.

Lemma platformShorthand_literal_keys :
  platformShorthand_literal.*1 = ["osx"; "win"; "win64"; "linux"; ""]%string.
Proof. reflexivity. Qed.

Lemma platformShorthand_literal_nodup : NoDup platformShorthand_literal.*1.
Proof. apply (bool_decide_unpack _). vm_compute. exact I. Qed.

Lemma platformShorthand_literal_values (p v : string) :
  p <> EmptyString -> (p, v) ∈ platformShorthand_literal -> In v validPlatforms.
Proof.
  intros Hp Hin. unfold platformShorthand_literal in Hin.
  repeat rewrite elem_of_cons in Hin. rewrite elem_of_nil in Hin.
  destruct Hin as [[= -> ->]|[[= -> ->]|[[= -> ->]|[[= -> ->]|[[= -> ->]|[]]]]]];
    [simpl; tauto .. | contradiction].
Qed.

(** [Builds_List]'s platform filter: a non-empty name is accepted exactly
    when it is one of the eleven valid platform names or one of the
    shorthands [osx], [win], [win64], [linux]; an accepted name is sent as
    the last query parameter [platform], with a valid platform name as
    value (the name itself when it already is one); any other name stops
    the process in [log.Fatalf] before a request is made, whatever the
    server would answer. *)
Theorem Builds_List_platform_filter (filterStatus filterPlatform : string) :
  filterPlatform <> EmptyString ->
  (list_query filterStatus filterPlatform = None <->
     ~ In filterPlatform (validPlatforms ++ ["osx"; "win"; "win64"; "linux"]%string)) /\
  (forall q, list_query filterStatus filterPlatform = Some q ->
     exists v, last q = Some ("platform"%string, v) /\ In v validPlatforms /\
       (In filterPlatform validPlatforms -> v = filterPlatform)) /\
  (list_query filterStatus filterPlatform = None ->
     forall list_resp buildTargetId limit,
       Builds_List_query list_resp buildTargetId filterStatus filterPlatform limit = CFatal).
Proof.
  intros Hp.
  assert (Hq : list_query filterStatus filterPlatform =
                 match platformShorthand !! filterPlatform with
                 | Some val => Some ((if (String.length filterStatus =? 0)%nat then []
                                      else [("buildStatus", filterStatus)%string])
                                     ++ [("platform"%string, val)])
                 | None => None
                 end).
  { unfold list_query. destruct filterPlatform as [|c s]; [contradiction | reflexivity]. }
  rewrite Hq, platformShorthand_lookup. split; [|split].
  - destruct (decide (filterPlatform ∈ validPlatforms)) as [Hv|Hv].
    + rewrite bool_decide_eq_true_2 by exact Hv. split; [discriminate|].
      intros Hn. exfalso. apply Hn. apply in_or_app. left. now apply list_elem_of_In.
    + rewrite bool_decide_eq_false_2 by exact Hv.
      destruct ((list_to_map platformShorthand_literal : gmap string string) !! filterPlatform) as [v|] eqn:Hl.
      * split; [discriminate|]. intros Hn. exfalso. apply Hn. apply in_or_app. right.
        apply elem_of_list_to_map_2, (list_elem_of_fmap_2 fst) in Hl.
        rewrite platformShorthand_literal_keys in Hl. simpl in Hl.
        apply list_elem_of_In in Hl. simpl in Hl |- *. intuition congruence.
      * split; [intros _|reflexivity]. intros Hin. apply in_app_or in Hin as [Hin|Hin].
        -- apply Hv. now apply list_elem_of_In.
        -- apply not_elem_of_list_to_map_2 in Hl. apply Hl.
           rewrite platformShorthand_literal_keys. apply list_elem_of_In. simpl in Hin |- *.
           tauto.
  - intros q.
    destruct (decide (filterPlatform ∈ validPlatforms)) as [Hv|Hv].
    + rewrite bool_decide_eq_true_2 by exact Hv. intros [= <-].
      exists filterPlatform. rewrite last_snoc.
      split; [reflexivity | split; [now apply list_elem_of_In | reflexivity]].
    + rewrite bool_decide_eq_false_2 by exact Hv.
      destruct ((list_to_map platformShorthand_literal : gmap string string) !! filterPlatform) as [v|] eqn:Hl;
        [|discriminate].
      intros [= <-]. exists v. rewrite last_snoc. split; [reflexivity|split].
      * apply (platformShorthand_literal_values filterPlatform); [exact Hp|].
        now apply elem_of_list_to_map_2.
      * intros Hin. exfalso. apply Hv. now apply list_elem_of_In.
  - intros Hn list_resp buildTargetId limit. unfold Builds_List_query.
    rewrite Hq, platformShorthand_lookup, Hn. reflexivity.
Qed.

(** With [limit > 0], [Builds_List] keeps the first [min(len, limit)]
    builds of the answer: the slice bound never leaves the list, so the
    call does not panic; with [limit <= 0] it keeps them all. *)
Theorem Builds_List_query_limit
    (list_resp : string -> list (string * string) -> list Build + go_error)
    (buildTargetId filterStatus filterPlatform : string) (limit : Z)
    (q : list (string * string)) (entries : list Build) :
  list_query filterStatus filterPlatform = Some q ->
  list_resp buildTargetId q = inl entries ->
  exists l, Builds_List_query list_resp buildTargetId filterStatus filterPlatform limit = COk l /\
    (0 < limit -> l = take (Z.to_nat limit) entries /\
                  length l = Nat.min (length entries) (Z.to_nat limit)) /\
    (limit <= 0 -> l = entries).
Proof.
  intros Hq Hr. unfold Builds_List_query. rewrite Hq, Hr.
  destruct (Z.ltb_spec 0 limit) as [Hpos|Hneg].
  - assert (Hs : go_slice entries (go_min (Z.of_nat (length entries)) limit)
                 = Some (take (Z.to_nat limit) entries)).
    { unfold go_slice, go_min. destruct (Z.gtb_spec (Z.of_nat (length entries)) limit).
      - rewrite (proj2 (Z.leb_le 0 limit)) by lia.
        rewrite (proj2 (Z.leb_le limit _)) by lia. reflexivity.
      - rewrite (proj2 (Z.leb_le 0 _)) by lia. rewrite Z.leb_refl. simpl.
        rewrite Nat2Z.id, firstn_all, take_ge by lia. reflexivity. }
    rewrite Hs. eexists. split; [reflexivity|]. split; [|lia].
    intros _. split; [reflexivity|]. rewrite length_take. lia.
  - eexists. split; [reflexivity|]. split; [lia | reflexivity].
Qed.

(** ** Waiting for builds *)

Section WaitFacts.
Variable UniqueId : Build -> string.
Variable fetch : nat -> string -> Z -> Build + go_error.
Variable fmt : OutputFormat.

Lemma say_builds ev st : ms_builds (say fmt ev st) = ms_builds st.
Proof. unfold say. now destruct (is_human fmt). Qed.

Lemma poll_entry_length abortOnFail t i b st :
  length (ms_builds (loop_state (poll_entry UniqueId fetch fmt abortOnFail t i b st)))
  = length (ms_builds st).
Proof.
  unfold poll_entry. destruct (finished_of st (UniqueId b)); [reflexivity|].
  destruct (fetch t (TargetId b) (Number b)) as [ub | [| |m]]; try reflexivity.
  cbv beta zeta.
  destruct (negb (String.eqb _ (Status ub))); destruct (negb (IsBuildActive ub));
    try destruct (abortOnFail && _); cbn [loop_state ms_builds];
    rewrite ?say_builds; cbn [ms_builds]; rewrite ?say_builds; cbn [ms_builds ms_log];
    apply length_insert.
Qed.

Lemma tick_loop_length abortOnFail t i bs st :
  length (ms_builds (loop_state (tick_loop UniqueId fetch fmt abortOnFail t i bs st)))
  = length (ms_builds st).
Proof.
  revert i st. induction bs as [|b bs IH]; intros i st; simpl; [reflexivity|].
  pose proof (poll_entry_length abortOnFail t i b st) as H.
  destruct (poll_entry UniqueId fetch fmt abortOnFail t i b st) eqn:E;
    cbn [loop_state] in *; try exact H.
  rewrite IH. exact H.
Qed.

Lemma poll_length abortOnFail fuel t st :
  length (ms_builds (poll_state (poll UniqueId fetch fmt abortOnFail fuel t st)))
  = length (ms_builds st).
Proof.
  revert t st. induction fuel as [|fuel IH]; intros t st; simpl; [reflexivity|].
  unfold tick. pose proof (tick_loop_length abortOnFail t 0 (ms_builds st) st) as H.
  destruct (tick_loop UniqueId fetch fmt abortOnFail t 0 (ms_builds st) st);
    cbn [loop_state poll_state] in *; try exact H;
    destruct (Nat.eqb _ _); cbn [poll_state]; try exact H; rewrite IH; exact H.
Qed.

Definition poll_error (abortOnFail : bool) (t : nat) (e : go_error) : Prop :=
  exists tid n, (fetch t tid n = inr e /\ e <> RateLimitedError) \/
    (abortOnFail = true /\ exists ub, fetch t tid n = inl ub /\
       IsBuildActive ub = false /\ Status ub <> "success"%string /\ e = ErrMsg (abort_msg ub)).

Lemma poll_entry_error abortOnFail t i b st e st' :
  poll_entry UniqueId fetch fmt abortOnFail t i b st = LReturn e st' ->
  poll_error abortOnFail t e.
Proof.
  unfold poll_entry. destruct (finished_of st (UniqueId b)); [discriminate|].
  destruct (fetch t (TargetId b) (Number b)) as [ub | err] eqn:Hf.
  - cbv beta zeta.
    destruct (String.eqb (Status ub) "success") eqn:Hs;
      destruct (negb (IsBuildActive ub)) eqn:Ha; destruct abortOnFail;
      destruct (negb (String.eqb _ (Status ub))); cbn [andb negb]; try discriminate.
    all: intros [= <- _]; exists (TargetId b), (Number b); right.
    all: split; [reflexivity|]; exists ub.
    all: split; [exact Hf|]; split; [now apply negb_true_iff|].
    all: split; [now apply String.eqb_neq | reflexivity].
  - destruct err as [| |m]; [discriminate | |]; intros [= <- _];
      exists (TargetId b), (Number b); left; split; auto; discriminate.
Qed.

Lemma tick_loop_error abortOnFail t i bs st e st' :
  tick_loop UniqueId fetch fmt abortOnFail t i bs st = LReturn e st' ->
  poll_error abortOnFail t e.
Proof.
  revert i st. induction bs as [|b bs IH]; intros i st; simpl; [discriminate|].
  destruct (poll_entry UniqueId fetch fmt abortOnFail t i b st) eqn:E; try discriminate.
  - apply IH.
  - intros [= <- <-]. exact (poll_entry_error _ _ _ _ _ _ _ E).
Qed.

(** The errors the poll loop of [Builds_WaitForComplete] can return: a
    status fetch error other than [RateLimitedError], or, only with
    [abortOnFail], the "Aborting early" error of a fetched build that is
    finished without success; both come from a tick at or after the
    first. *)
Theorem poll_returned_errors (abortOnFail : bool) (fuel t : nat) (st st' : mstate)
    (e : go_error) :
  poll UniqueId fetch fmt abortOnFail fuel t st = PollReturn e st' ->
  exists t', (t <= t')%nat /\ poll_error abortOnFail t' e.
Proof.
  revert t st. induction fuel as [|fuel IH]; intros t st; simpl; [discriminate|].
  unfold tick.
  destruct (tick_loop UniqueId fetch fmt abortOnFail t 0 (ms_builds st) st) eqn:E.
  - destruct (Nat.eqb _ _); [discriminate|]. intros H.
    destruct (IH _ _ H) as (t' & Ht & He). exists t'. split; [lia | exact He].
  - destruct (Nat.eqb _ _); [discriminate|]. intros H.
    destruct (IH _ _ H) as (t' & Ht & He). exists t'. split; [lia | exact He].
  - intros [= <- <-]. exists t. split; [lia|]. exact (tick_loop_error _ _ _ _ _ _ _ E).
Qed.

Lemma watch_init_builds bs st st' :
  watch_init UniqueId fmt bs st = inr st' -> ms_builds st' = ms_builds st.
Proof.
  revert st. induction bs as [|b bs IH]; intros st; simpl; [congruence|].
  destruct (negb (IsBuildActive b)); [discriminate|].
  intros H. rewrite (IH _ H), say_builds. reflexivity.
Qed.

Lemma watch_init_active bs st :
  Forall (fun b => IsBuildActive b = true) bs ->
  exists st', watch_init UniqueId fmt bs st = inr st'.
Proof.
  intros HF. revert st. induction HF as [|b bs Hb HF IH]; intros st; simpl; [eauto|].
  rewrite Hb. simpl. apply IH.
Qed.

Lemma first_unsuccessful_none bs :
  first_unsuccessful bs = None -> Forall (fun b => Status b = "success"%string) bs.
Proof.
  induction bs as [|b bs IH]; simpl; [constructor|].
  destruct (String.eqb_spec (Status b) "success"); [|discriminate].
  intros H. constructor; auto.
Qed.

(** [Builds_WaitForComplete] returns [nil] only after its poll loop has
    exited with every watched build (as last fetched) in status
    ["success"]. *)
Theorem Builds_WaitForComplete_nil_all_success (abortOnFail : bool)
    (targets_resp : list BuildTarget + go_error)
    (history_resp : string -> string -> list Build + go_error)
    (status_resp : string -> Z -> Build + go_error) (fuel : nat)
    (buildTargetId : string) (buildNumber : Z) (all : bool) :
  fst (Builds_WaitForComplete UniqueId fetch fmt targets_resp history_resp status_resp
         fuel buildTargetId buildNumber all abortOnFail) = WReturn None ->
  exists builds st st',
    watch_collect targets_resp history_resp status_resp buildTargetId buildNumber all
      = inl builds /\
    watch_init UniqueId fmt builds (mkMState builds ∅ ∅ 0 []) = inr st /\
    poll UniqueId fetch fmt abortOnFail fuel 0 st = PollExit st' /\
    builds <> [] /\ length (ms_builds st') = length builds /\
    Forall (fun b => Status b = "success"%string) (ms_builds st').
Proof.
  unfold Builds_WaitForComplete.
  destruct (watch_collect _ _ _ _ _ _) as [builds|e] eqn:Hc; [|discriminate].
  unfold wait_watch. destruct builds as [|b0 bs0] eqn:Eb; [discriminate|].
  rewrite <- Eb.
  destruct (watch_init UniqueId fmt builds _) as [[e st]|st] eqn:Hw; [discriminate|].
  destruct (poll UniqueId fetch fmt abortOnFail fuel 0 st) as [st'|e st'|st'] eqn:Hp;
    try discriminate.
  destruct (first_unsuccessful (ms_builds st')) eqn:Hf; [discriminate|].
  intros _. exists builds, st, st'.
  do 3 (split; [first [reflexivity | assumption | rewrite <- Eb; assumption] |]).
  split; [rewrite Eb; discriminate|]. split.
  - pose proof (poll_length abortOnFail fuel 0 st) as Hl. rewrite Hp in Hl. simpl in Hl.
    rewrite Hl, (watch_init_builds _ _ _ Hw). reflexivity.
  - now apply first_unsuccessful_none.
Qed.
End WaitFacts.

Lemma watch_fold_in (l : list (string * option Build)) (acc : list Build) (b : Build) :
  In b (foldl (fun acc kv =>
                 match kv.2 with
                 | Some b => if IsBuildActive b then acc ++ [b] else acc
                 | None => acc
                 end) acc l)
  <-> In b acc \/ exists k, In (k, Some b) l /\ IsBuildActive b = true.
Proof.
  revert acc. induction l as [|[k v] l IH]; intros acc; simpl.
  - split; [auto | intros [H|(k & [] & _)]; exact H].
  - rewrite IH. destruct v as [c|]; [destruct (IsBuildActive c) eqn:Hc|]; simpl.
    + rewrite in_app_iff. simpl. split.
      * intros [[H|[<-|[]]]|(k' & Hk & Ha)]; [auto | right; exists k; auto | right; eauto].
      * intros [H|(k' & [[= -> ->]|Hk] & Ha)]; [auto | auto | right; eauto].
    + split.
      * intros [H|(k' & Hk & Ha)]; [auto | right; eauto].
      * intros [H|(k' & [[= -> ->]|Hk] & Ha)]; [auto | congruence | right; eauto].
    + split.
      * intros [H|(k' & Hk & Ha)]; [auto | right; eauto].
      * intros [H|(k' & [[=]|Hk] & Ha)]; [auto | right; eauto].
Qed.

(** In [all] mode the watch set of [Builds_WaitForComplete] holds exactly
    the builds of [Builds_Latest(false, true)] that are not nil and are
    active, so its set-up loop never rejects a build as not active. *)
Theorem watch_collect_all_active (targets_resp : list BuildTarget + go_error)
    (history_resp : string -> string -> list Build + go_error)
    (status_resp : string -> Z -> Build + go_error) (buildTargetId : string)
    (buildNumber : Z) (latest : gmap string (option Build)) (builds : list Build) :
  snd (Builds_Latest targets_resp history_resp false true) = inl latest ->
  watch_collect targets_resp history_resp status_resp buildTargetId buildNumber true
    = inl builds ->
  (forall b, In b builds <-> exists id, latest !! id = Some (Some b) /\ IsBuildActive b = true) /\
  (forall UniqueId fmt st, exists st', watch_init UniqueId fmt builds st = inr st').
Proof.
  intros Hl Hc. unfold watch_collect in Hc. rewrite Hl in Hc. injection Hc as <-.
  assert (Hin : forall b, In b (foldl (fun acc kv =>
                 match kv.2 with
                 | Some b => if IsBuildActive b then acc ++ [b] else acc
                 | None => acc
                 end) [] (map_to_list latest)) <->
                 exists id, latest !! id = Some (Some b) /\ IsBuildActive b = true).
  { intros b. rewrite watch_fold_in. simpl. split.
    - intros [[]|(k & Hk & Ha)]. exists k. split; [|exact Ha].
      apply elem_of_map_to_list, list_elem_of_In, Hk.
    - intros (k & Hk & Ha). right. exists k. split; [|exact Ha].
      apply list_elem_of_In, elem_of_map_to_list, Hk. }
  split; [exact Hin|]. intros UniqueId fmt st. apply watch_init_active.
  apply List.Forall_forall. intros b Hb. apply Hin in Hb as (_ & _ & Ha). exact Ha.
Qed.

(** [Builds_WaitForComplete] returns "No builds found" before watching or
    polling any build (no monitor event: no "Watching" line and no status
    fetch), when the target asked for has no build in
    [Builds_Latest(false, true)] (no number given), or, in [all] mode, when
    no latest build is active. The listing [Builds_Latest] itself prints
    under [--verbose] is not a monitor event. *)
Theorem Builds_WaitForComplete_no_builds (UniqueId : Build -> string)
    (fetch : nat -> string -> Z -> Build + go_error) (fmt : OutputFormat)
    (targets_resp : list BuildTarget + go_error)
    (history_resp : string -> string -> list Build + go_error)
    (status_resp : string -> Z -> Build + go_error) (fuel : nat)
    (buildTargetId : string) (buildNumber : Z) (all abortOnFail : bool)
    (latest : gmap string (option Build)) :
  snd (Builds_Latest targets_resp history_resp false true) = inl latest ->
  ((all = false /\ buildNumber <= 0 /\ forall b, latest !! buildTargetId <> Some (Some b)) \/
   (all = true /\ forall id b, latest !! id = Some (Some b) -> IsBuildActive b = false)) ->
  Builds_WaitForComplete UniqueId fetch fmt targets_resp history_resp status_resp fuel
    buildTargetId buildNumber all abortOnFail = (WReturn (Some (ErrMsg "No builds found")), []).
Proof.
  intros Hl [(-> & Hn & Hno) | (-> & Hna)].
  - unfold Builds_WaitForComplete, watch_collect. simpl.
    rewrite (proj2 (Z.ltb_ge 0 buildNumber)) by lia. rewrite Hl.
    destruct (latest !! buildTargetId) as [[b|]|] eqn:E; [|reflexivity|reflexivity].
    exfalso. exact (Hno b eq_refl).
  - unfold Builds_WaitForComplete.
    destruct (watch_collect targets_resp history_resp status_resp buildTargetId buildNumber true)
      as [builds|e] eqn:Hc.
    + destruct (watch_collect_all_active _ _ _ _ _ _ _ Hl Hc) as [Hin _].
      destruct builds as [|b bs]; [reflexivity|].
      exfalso. destruct (proj1 (Hin b) (or_introl eq_refl)) as (id & Hid & Ha).
      rewrite (Hna id b Hid) in Ha. discriminate.
    + unfold watch_collect in Hc. rewrite Hl in Hc. discriminate.
Qed.

(** ** Latest builds *)

Lemma latest_pass1_skipped (onlyEnabled : bool) (ts : list BuildTarget)
    (m : gmap string (option Build)) (id : string) :
  (forall t, In t ts -> Id t = id -> skip_target onlyEnabled t = true) ->
  latest_pass1 onlyEnabled ts m !! id = m !! id.
Proof.
  revert m. induction ts as [|t ts IH]; intros m Hs; simpl; [reflexivity|].
  destruct (skip_target onlyEnabled t) eqn:Hk.
  - apply IH. intros t' Ht'. apply Hs. now right.
  - rewrite IH by (intros t' Ht'; apply Hs; now right).
    apply lookup_insert_ne. intros Heq.
    rewrite (Hs t (or_introl eq_refl) Heq) in Hk. discriminate.
Qed.

Lemma latest_pass1_kept (onlyEnabled : bool) (ts : list BuildTarget)
    (m : gmap string (option Build)) (t : BuildTarget) :
  NoDup (map Id ts) -> In t ts -> skip_target onlyEnabled t = false ->
  latest_pass1 onlyEnabled ts m !! Id t = Some (head (Builds t)).
Proof.
  revert m. induction ts as [|t' ts IH]; intros m Hnd Hin Hk; [destruct Hin|].
  simpl in Hnd. apply NoDup_cons in Hnd as [Hnot Hnd]. simpl.
  destruct Hin as [<-|Hin].
  - rewrite Hk. rewrite latest_pass1_skipped.
    + apply lookup_insert_eq.
    + intros t'' Ht'' Hid. exfalso. apply Hnot.
      apply list_elem_of_In, in_map_iff. eauto.
  - destruct (skip_target onlyEnabled t'); apply IH; auto.
Qed.

(** With [onlySuccess], [Builds_Latest] sends no history request: for
    every target it keeps (all of them, or only the enabled ones with
    [onlyEnabled]) the result is the first build the target listing
    reported, or nil when it reported none; a target it drops is absent
    from the result (target ids being distinct). *)
Theorem Builds_Latest_only_success (targets_resp : list BuildTarget + go_error)
    (history_resp : string -> string -> list Build + go_error) (onlyEnabled : bool)
    (targets : list BuildTarget) (calls : list string) (m : gmap string (option Build)) :
  targets_resp = inl targets -> NoDup (map Id targets) ->
  Builds_Latest targets_resp history_resp true onlyEnabled = (calls, inl m) ->
  calls = [] /\
  (forall t, In t targets ->
     (onlyEnabled = false \/ Enabled t = true -> m !! Id t = Some (head (Builds t))) /\
     (onlyEnabled = true -> Enabled t = false -> m !! Id t = None)).
Proof.
  intros Ht Hnd H. unfold Builds_Latest in H. rewrite Ht in H. simpl in H.
  injection H as <- <-. split; [reflexivity|]. intros t Hin. split.
  - intros Hk. apply latest_pass1_kept; [exact Hnd | exact Hin |].
    unfold skip_target. destruct Hk as [-> | ->]; [reflexivity | now rewrite andb_false_r].
  - intros -> He. rewrite latest_pass1_skipped; [apply lookup_empty|].
    intros t' Ht' Hid.
    assert (t' = t) as ->.
    { clear -Hnd Hin Ht' Hid. induction targets as [|u us IH]; [destruct Hin|].
      simpl in Hnd. apply NoDup_cons in Hnd as [Hnot Hnd].
      destruct Hin as [<-|Hin], Ht' as [<-|Ht']; auto.
      - exfalso. apply Hnot. apply list_elem_of_In, in_map_iff. eauto.
      - exfalso. apply Hnot. apply list_elem_of_In, in_map_iff. eauto. }
    unfold skip_target. now rewrite He.
Qed.

Lemma latest_pass2_error (history_resp : string -> string -> list Build + go_error)
    (onlyEnabled : bool) (ts : list BuildTarget) (m : gmap string (option Build))
    (calls0 calls : list string) (e : go_error) :
  latest_pass2 history_resp onlyEnabled ts m calls0 = (calls, inr e) ->
  exists pre id, calls = calls0 ++ pre ++ [id] /\ history_resp id EmptyString = inr e /\
    Forall (fun i => exists l, history_resp i EmptyString = inl l) pre.
Proof.
  revert m calls0. induction ts as [|t ts IH]; intros m calls0 H; simpl in H; [discriminate|].
  destruct (skip_target onlyEnabled t); [exact (IH _ _ H)|].
  unfold Builds_List in H.
  destruct (history_resp (Id t) EmptyString) as [l|e'] eqn:Hh; simpl in H.
  - destruct (IH _ _ H) as (pre & id & Hc & He & HF).
    exists (Id t :: pre), id. rewrite Hc, <- app_assoc. simpl.
    split; [reflexivity | split; [exact He | constructor; eauto]].
  - injection H as <- <-. exists [], (Id t). simpl. auto.
Qed.

(** [Builds_Latest] fails only with the error of the target listing,
    having sent nothing else, or, without [onlySuccess], with the error of
    the last history request it sent, all earlier ones having
    succeeded. *)
Theorem Builds_Latest_error (targets_resp : list BuildTarget + go_error)
    (history_resp : string -> string -> list Build + go_error)
    (onlySuccess onlyEnabled : bool) (calls : list string) (e : go_error) :
  Builds_Latest targets_resp history_resp onlySuccess onlyEnabled = (calls, inr e) ->
  (targets_resp = inr e /\ calls = []) \/
  (onlySuccess = false /\ exists pre id, calls = pre ++ [id] /\
     history_resp id EmptyString = inr e /\
     Forall (fun i => exists l, history_resp i EmptyString = inl l) pre).
Proof.
  unfold Builds_Latest. destruct targets_resp as [targets|e'].
  - destruct onlySuccess; simpl; [discriminate|]. intros H. right. split; [reflexivity|].
    exact (latest_pass2_error _ _ _ _ _ _ _ H).
  - intros [= <- <-]. left. auto.
Qed.

(** ** Matching the head revision *)

(** Without [all] and without a build number, [Git_BuildsMatchHead]
    checks nothing when no enabled target carries the id asked for: once
    [Git_Head] has read the head revision it returns true, so an unknown
    or a disabled target passes; otherwise it returns [Git_Head]'s error,
    or the process exits in [Git_Head]. *)
Theorem Git_BuildsMatchHead_unknown_target (fmt : OutputFormat) (head_res : git_head_res)
    (targets_resp : list BuildTarget + go_error)
    (history_resp : string -> string -> list Build + go_error)
    (status_resp : string -> Z -> Build + go_error) (targets : list BuildTarget)
    (buildTargetId : string) (buildNumber : Z) :
  targets_resp = inl targets -> buildNumber <= 0 ->
  no_enabled_with_id targets buildTargetId ->
  Git_BuildsMatchHead_call fmt head_res targets_resp history_resp status_resp buildTargetId
    buildNumber false =
    match head_res with
    | GitHead _ => Some (MROk true)
    | GitHeadErr e => Some (MRErr e)
    | GitHeadFatal => None
    end.
Proof.
  intros Ht Hn Hno. unfold Git_BuildsMatchHead_call.
  destruct head_res as [head|e|]; [f_equal | reflexivity | reflexivity].
  unfold Git_BuildsMatchHead, collect, Builds_Latest. rewrite Ht. simpl.
  rewrite (proj2 (Z.ltb_ge 0 buildNumber)) by lia.
  rewrite latest_pass1_other by exact Hno. rewrite lookup_empty. reflexivity.
Qed.

Lemma check_builds_no_panic (fmt : OutputFormat) (head : string) (bs : list Build) (a : bool) :
  is_human fmt = false -> check_builds fmt head bs a <> MRPanic.
Proof.
  intros Hh. revert a. induction bs as [|b bs IH]; intros a; simpl; [discriminate|].
  destruct (check_build head b); [apply IH | | apply IH].
  unfold mismatch_print_panics. rewrite Hh. apply IH.
Qed.

(** [Git_BuildsMatchHead] panics only in human output mode, where the
    mismatch message slices revisions to 8 characters. *)
Theorem Git_BuildsMatchHead_panics_only_human (fmt : OutputFormat) (head : string)
    (targets_resp : list BuildTarget + go_error)
    (history_resp : string -> string -> list Build + go_error)
    (status_resp : string -> Z -> Build + go_error)
    (buildTargetId : string) (buildNumber : Z) (all : bool) :
  Git_BuildsMatchHead fmt head targets_resp history_resp status_resp buildTargetId buildNumber
    all = MRPanic -> fmt = OutputFormat_Human.
Proof.
  intros H. destruct fmt; [exfalso | exfalso | reflexivity];
    unfold Git_BuildsMatchHead in H;
    destruct (collect _ _ _ _ _ _) as [[builds missing]|e]; try discriminate;
    unfold check_all in H; revert H; apply check_builds_no_panic; reflexivity.
Qed.

(** ** Downloading *)

(** A download without unzip returns the error of [os.Create] with
    nothing touched and nothing transferred; once the file is created and
    the transfer completes, it writes the whole body at
    [join outputDir filename], touches no other file, and closes it, on
    either platform. *)
Theorem download_output_plain (plat : platform) (grab : string -> transfer)
    (url_filename : string -> string + go_error) (join : string -> string -> string)
    (temp_name : string -> string) (extract : string -> string -> fs -> fs * option go_error)
    (create_err tempfile_err : string -> option go_error)
    (link : Link) (outputDir : string) (f : fs) (filename body : string) :
  url_filename (link_Href link) = inl filename ->
  (forall e, create_err (join outputDir filename) = Some e ->
     download_output plat grab url_filename join temp_name extract create_err tempfile_err
       link outputDir false f = (DErr e, f, [])) /\
  (create_err (join outputDir filename) = None ->
   grab (link_Href link) = Response 200 body None ->
   download_output plat grab url_filename join temp_name extract create_err tempfile_err
     link outputDir false f =
    (DOk, mkFs (<[join outputDir filename := body]> (fs_files f))
                (({[join outputDir filename]} ∪ fs_open f) ∖ {[join outputDir filename]}),
     [EvCreate (join outputDir filename); EvTransfer (link_Href link)])).
Proof.
  intros Hu. unfold download_output. rewrite Hu. simpl. split.
  - intros e He. rewrite He. reflexivity.
  - intros Hc Hg. rewrite Hc. unfold download_to, grabHttpFile. rewrite Hu, Hg. simpl.
    unfold run_defers, write_file, os_Create. simpl.
    rewrite insert_insert_eq. reflexivity.
Qed.

(** On a POSIX host an unzip download never leaves its temporary archive
    behind, whatever the transfer and the extraction do ([download_to]
    runs once [ioutil.TempFile] has created the archive; when it fails,
    nothing is created). *)
Theorem download_to_unzip_removes_temp_posix (grab : string -> transfer)
    (url_filename : string -> string + go_error) (join : string -> string -> string)
    (temp_name : string -> string) (extract : string -> string -> fs -> fs * option go_error)
    (link : Link) (outputDir : string) (f : fs) (filename : string) :
  url_filename (link_Href link) = inl filename ->
  fs_files (snd (fst (download_to Posix grab url_filename join temp_name extract
                        link outputDir true f))) !! temp_name filename = None.
Proof.
  intros Hu. unfold download_to. rewrite Hu. cbv zeta.
  destruct (grabHttpFile grab (link_Href link) (temp_name filename)
              (os_Create (temp_name filename) f)) as [g [e|]].
  - simpl. apply lookup_delete_eq.
  - simpl. destruct (extract (temp_name filename) outputDir g) as [g' [e|]];
      simpl; apply lookup_delete_eq.
Qed.

(** On a Windows host an unzip download whose [ioutil.TempFile] succeeds
    leaves its temporary archive, with the whole body, once the transfer
    completed, whether the extraction succeeds or fails, as long as the
    extraction keeps the archive open and unchanged: the deferred removal
    runs before the deferred close. *)
Theorem download_output_unzip_leaves_temp_windows (grab : string -> transfer)
    (url_filename : string -> string + go_error) (join : string -> string -> string)
    (temp_name : string -> string) (extract : string -> string -> fs -> fs * option go_error)
    (create_err tempfile_err : string -> option go_error)
    (link : Link) (outputDir : string) (f : fs) (filename body : string) :
  url_filename (link_Href link) = inl filename ->
  tempfile_err filename = None ->
  grab (link_Href link) = Response 200 body None ->
  (forall g, temp_name filename ∈ fs_open g ->
     temp_name filename ∈ fs_open (extract (temp_name filename) outputDir g).1 /\
     fs_files (extract (temp_name filename) outputDir g).1 !! temp_name filename
       = fs_files g !! temp_name filename) ->
  fs_files (snd (fst (download_output Windows grab url_filename join temp_name extract
                        create_err tempfile_err link outputDir true f)))
    !! temp_name filename = Some body.
Proof.
  intros Hu Ht Hg Hx. unfold download_output. rewrite Hu. simpl. rewrite Ht.
  unfold download_to, grabHttpFile. rewrite Hu, Hg. cbv zeta. simpl.
  set (g := write_file (temp_name filename) body (os_Create (temp_name filename) f)).
  assert (Hg1 : temp_name filename ∈ fs_open g) by (simpl; set_solver).
  assert (Hg2 : fs_files g !! temp_name filename = Some body)
    by (simpl; apply lookup_insert_eq).
  destruct (Hx g Hg1) as [Ho Hf].
  destruct (extract (temp_name filename) outputDir g) as [g' r] eqn:E. cbn [fst] in Ho, Hf.
  destruct r; simpl; rewrite bool_decide_eq_true_2 by exact Ho; simpl; congruence.
Qed.

(** [Builds_Download] with [latest] takes the first build of the target's
    history filtered on ["success"], and returns "No successful build for
    target <id>", with the file system untouched and nothing transferred,
    when that history is empty; in either mode a failing lookup request
    ends the process in [log.Fatal] instead of returning an error. *)
Theorem Builds_Download_cmd_resolution (plat : platform) (stat : string -> stat_result)
    (grab : string -> transfer) (url_filename : string -> string + go_error)
    (join : string -> string -> string) (temp_name : string -> string)
    (extract : string -> string -> fs -> fs * option go_error)
    (strings_ToLower : string -> string) (create_err tempfile_err : string -> option go_error)
    (history_resp : string -> string -> list Build + go_error)
    (status_resp : string -> Z -> Build + go_error)
    (buildTargetId : string) (buildNumber : Z) (outputDir : string) (unzip : bool) (f : fs) :
  (history_resp buildTargetId "success"%string = inl [] ->
     Builds_Download_cmd plat stat grab url_filename join temp_name extract
       strings_ToLower create_err tempfile_err history_resp
       status_resp buildTargetId buildNumber true outputDir unzip f
     = Some (DErr (ErrMsg ("No successful build for target " ++ buildTargetId)), f, [])) /\
  (forall b rest, history_resp buildTargetId "success"%string = inl (b :: rest) ->
     Builds_Download_cmd plat stat grab url_filename join temp_name extract
       strings_ToLower create_err tempfile_err history_resp
       status_resp buildTargetId buildNumber true outputDir unzip f
     = Some (Builds_Download plat stat grab url_filename join temp_name extract
               strings_ToLower create_err tempfile_err b outputDir unzip f)) /\
  (forall e, history_resp buildTargetId "success"%string = inr e ->
     Builds_Download_cmd plat stat grab url_filename join temp_name extract
       strings_ToLower create_err tempfile_err history_resp
       status_resp buildTargetId buildNumber true outputDir unzip f = None) /\
  (forall e, status_resp buildTargetId buildNumber = inr e ->
     Builds_Download_cmd plat stat grab url_filename join temp_name extract
       strings_ToLower create_err tempfile_err history_resp
       status_resp buildTargetId buildNumber false outputDir unzip f = None).
Proof.
  unfold Builds_Download_cmd, download_build, Builds_List. simpl.
  split; [intros -> | split; [intros b rest -> | split; [intros e -> | intros e ->]]];
    reflexivity.
Qed.

Module ExtraSample.
Definition attempt_ok := mkBuildAttempt Sample.b_ios EmptyString.
Definition attempt_failed := mkBuildAttempt Sample.b_and "Build target is disabled"%string.
(** Every body decodes to the two attempts. *)
Definition decode_attempts (body : string) : option (list BuildAttempt) :=
  Some [attempt_ok; attempt_failed].
Definition no_error_field (body : string) : option string := None.
Definition targets : list BuildTarget :=
  [mkBuildTarget "ios" true [Sample.b_ios_done]; mkBuildTarget "android" true []].
Definition targets_mixed : list BuildTarget :=
  [mkBuildTarget "ios" true [Sample.b_ios_done]; mkBuildTarget "android" false []].
(** The history of each target starts with a build still running. *)
Definition history_running (id filter : string) : list Build + go_error :=
  if String.eqb id "ios" then inl [Sample.b_ios; Sample.b_ios_done] else inl [Sample.b_and].
Definition history_rate_limited (id filter : string) : list Build + go_error :=
  if String.eqb id "ios" then inl [Sample.b_ios] else inr RateLimitedError.
Definition history_no_success (id filter : string) : list Build + go_error := inl [].
Definition status_queued (id : string) (n : Z) : Build + go_error := inl Sample.b_ios.
(** A 500 for the [android] builds. *)
Definition cancel_500 (id : string) : option go_error :=
  if String.eqb id "android" then Some (ErrMsg "[HTTP 500] ") else None.
Definition list_three (id : string) (q : list (string * string)) : list Build + go_error :=
  inl [Sample.b_ios; Sample.b_ios_done; Sample.b_and].
Definition fetch_not_found (t : nat) (tid : string) (n : Z) : Build + go_error :=
  inr ResourceNotFoundError.
Definition short_rev := mkBuild 3 "ios" "success" "abc" Sample.no_links.
Definition status_short_rev (id : string) (n : Z) : Build + go_error := inl short_rev.
Definition grab_ok (href : string) : transfer := Response 200 "bytes" None.
(** A URL parser that rejects any [%] (so any escape, valid or not). *)
Definition url_ok (u : string) : bool :=
  negb (existsb (fun c => Ascii.eqb c "%"%char) (list_ascii_of_string u)).
(** The last builds of [targets] under [history_running]. *)
Definition latest_running : gmap string (option Build) :=
  <["ios" := Some Sample.b_ios]> (<["android" := Some Sample.b_and]> ∅).
(** The last successes of the enabled targets of [targets_mixed]. *)
Definition latest_mixed : gmap string (option Build) :=
  <["ios" := Some Sample.b_ios_done]> ∅.
End ExtraSample.

(** The first attempt succeeded, the second carries an error: the first
    is returned. *)
Lemma Builds_Start_first_attempt_witness :
  Builds_Start (fun s => s)
    (doRequest ExtraSample.no_error_field (Some ExtraSample.decode_attempts) 200 "attempts")
  = COk ExtraSample.attempt_ok.
Proof.
  destruct (Builds_Start_first_attempt (fun s => s) ExtraSample.no_error_field
              ExtraSample.decode_attempts 200 "attempts") as [_ H].
  destruct (H (or_introl eq_refl)) as [_ H2].
  exact (proj1 (H2 ExtraSample.attempt_ok [ExtraSample.attempt_failed] eq_refl) eq_refl).
Defined.

(** The same answer through [Builds_StartAll]: both attempts. *)
Lemma Builds_StartAll_returns_every_attempt_witness :
  Builds_StartAll
    (doRequest ExtraSample.no_error_field (Some ExtraSample.decode_attempts) 202 "attempts")
  = COk [ExtraSample.attempt_ok; ExtraSample.attempt_failed].
Proof.
  apply (Builds_StartAll_returns_every_attempt _ _ _ _ _ (or_intror eq_refl) eq_refl).
  discriminate.
Defined.

(** Cancelling [ios #7] when the server answers 404. *)
Lemma Builds_Cancel_outcomes_witness :
  Builds_Cancel_call ExtraSample.url_ok "acme" "game" "ios" 7
    (doRequest (A := unit) ExtraSample.no_error_field None 404 "")
  = CErr (ErrMsg ("Cannot find " ++ "ios" ++ " build #" ++ fmt_d 7)).
Proof.
  exact (proj1 (proj2 (proj2 (Builds_Cancel_outcomes ExtraSample.url_ok "acme" "game"
                                ExtraSample.no_error_field "ios" 7 404 "")) eq_refl) eq_refl).
Defined.

(** Cancelling all builds: the disabled [android] target is asked too,
    and its 500 ends the call. *)
Lemma Builds_CancelAll_requests_witness :
  exists pre i post, ["ios"; "android"]%string = pre ++ i :: post /\
    ["ios"; "android"]%string = pre ++ [i] /\
    ExtraSample.cancel_500 i = Some (ErrMsg "[HTTP 500] ") /\
    Forall (fun j => ExtraSample.cancel_500 j = None) pre.
Proof.
  exact (proj2 (Builds_CancelAll_requests (inl ExtraSample.targets_mixed) ExtraSample.cancel_500
                  EmptyString ExtraSample.targets_mixed ["ios"; "android"]%string
                  (Some (ErrMsg "[HTTP 500] ")) eq_refl ltac:(vm_compute; reflexivity))
           (ErrMsg "[HTTP 500] ") eq_refl).
Defined.

(** Cancelling the builds of [webgl], which no target carries. *)
Lemma Builds_CancelAll_unknown_id_witness :
  Builds_CancelAll (inl ExtraSample.targets) ExtraSample.cancel_500 "webgl" = Some ([], None).
Proof.
  apply (Builds_CancelAll_unknown_id _ _ _ ExtraSample.targets eq_refl); [discriminate|].
  repeat constructor; simpl; discriminate.
Defined.

(** Listing with the platform filter [mac]. *)
Lemma Builds_List_platform_filter_witness :
  Builds_List_query ExtraSample.list_three "ios" EmptyString "mac" 0 = CFatal.
Proof.
  destruct (Builds_List_platform_filter EmptyString "mac" ltac:(discriminate)) as [Hn [_ Hf]].
  apply Hf, Hn. cbn. intros H. repeat (destruct H as [H|H]; [discriminate H|]). exact H.
Defined.

(** Three builds listed with limit 2, status and platform filters. *)
Lemma Builds_List_query_limit_witness :
  Builds_List_query ExtraSample.list_three "ios" "success" "win64" 2
  = COk [Sample.b_ios; Sample.b_ios_done].
Proof.
  destruct (Builds_List_query_limit ExtraSample.list_three "ios" "success" "win64" 2
              [("buildStatus", "success"); ("platform", "standalonewindows64")]%string
              [Sample.b_ios; Sample.b_ios_done; Sample.b_and]
              ltac:(vm_compute; reflexivity) eq_refl) as (l & Hl & Hpos & _).
  rewrite Hl. destruct (Hpos ltac:(lia)) as [-> _]. reflexivity.
Defined.

(** A status fetch answering [ResourceNotFoundError] on the first tick. *)
Lemma poll_returned_errors_witness :
  exists t', (0 <= t')%nat /\ poll_error ExtraSample.fetch_not_found false t' ResourceNotFoundError.
Proof.
  assert (E : poll Sample.uid ExtraSample.fetch_not_found OutputFormat_None false 3 0
                (mkMState [Sample.b_ios] ∅ ∅ 0 [])
              = PollReturn ResourceNotFoundError
                  (ms_log (EvPoll Sample.b_ios) (mkMState [Sample.b_ios] ∅ ∅ 0 [])))
    by (vm_compute; reflexivity).
  exact (poll_returned_errors Sample.uid ExtraSample.fetch_not_found OutputFormat_None false 3 0
           _ _ ResourceNotFoundError E).
Defined.

(** Waiting for [ios #1], rate limited once, then successful. *)
Lemma Builds_WaitForComplete_nil_all_success_witness :
  exists builds st st',
    watch_collect (inl []) ExtraSample.history_running ExtraSample.status_queued "ios" 1 false
      = inl builds /\
    watch_init Sample.uid OutputFormat_Human builds (mkMState builds ∅ ∅ 0 []) = inr st /\
    poll Sample.uid Sample.fetch_rl_then_done OutputFormat_Human false 5 0 st = PollExit st' /\
    builds <> [] /\ length (ms_builds st') = length builds /\
    Forall (fun b => Status b = "success"%string) (ms_builds st').
Proof.
  exact (Builds_WaitForComplete_nil_all_success Sample.uid Sample.fetch_rl_then_done
           OutputFormat_Human false (inl []) ExtraSample.history_running
           ExtraSample.status_queued 5 "ios" 1 false ltac:(vm_compute; reflexivity)).
Defined.

(** Two enabled targets whose last builds are running. *)
Lemma watch_collect_all_active_witness :
  (In Sample.b_and [Sample.b_ios; Sample.b_and] <->
     exists id, ExtraSample.latest_running !! id = Some (Some Sample.b_and) /\
                IsBuildActive Sample.b_and = true) /\
  exists st', watch_init Sample.uid OutputFormat_Human [Sample.b_ios; Sample.b_and]
                (mkMState [Sample.b_ios; Sample.b_and] ∅ ∅ 0 []) = inr st'.
Proof.
  destruct (watch_collect_all_active (inl ExtraSample.targets) ExtraSample.history_running
              ExtraSample.status_queued EmptyString 0
              ExtraSample.latest_running
              [Sample.b_ios; Sample.b_and]
              ltac:(vm_compute; reflexivity) ltac:(vm_compute; reflexivity)) as [Hin Hw].
  exact (conj (Hin Sample.b_and) (Hw Sample.uid OutputFormat_Human _)).
Defined.

(** Waiting for the last build of [webgl], a target that does not exist. *)
Lemma Builds_WaitForComplete_no_builds_witness :
  Builds_WaitForComplete Sample.uid Sample.fetch_rl_then_done OutputFormat_Human
    (inl ExtraSample.targets) ExtraSample.history_running ExtraSample.status_queued 5
    "webgl" 0 false false = (WReturn (Some (ErrMsg "No builds found")), []).
Proof.
  apply (Builds_WaitForComplete_no_builds Sample.uid Sample.fetch_rl_then_done OutputFormat_Human
           (inl ExtraSample.targets) ExtraSample.history_running ExtraSample.status_queued 5
           "webgl" 0 false false ExtraSample.latest_running
           ltac:(vm_compute; reflexivity)).
  left. split; [reflexivity|]. split; [lia|]. intros b. vm_compute. discriminate.
Defined.

(** Last successes of the enabled targets: the disabled [android] is
    absent. *)
Lemma Builds_Latest_only_success_witness :
  ExtraSample.latest_mixed !! "android"%string = None.
Proof.
  destruct (Builds_Latest_only_success (inl ExtraSample.targets_mixed) ExtraSample.history_running
              true ExtraSample.targets_mixed [] ExtraSample.latest_mixed eq_refl
              ltac:(apply (bool_decide_unpack _); vm_compute; exact I)
              ltac:(vm_compute; reflexivity)) as [_ H].
  exact (proj2 (H (mkBuildTarget "android" false []) ltac:(simpl; tauto)) eq_refl eq_refl).
Defined.

(** The history request of [android] is rate limited. *)
Lemma Builds_Latest_error_witness :
  ((inl ExtraSample.targets : list BuildTarget + go_error) = inr RateLimitedError /\
     ["ios"; "android"]%string = []) \/
  (false = false /\ exists pre id, ["ios"; "android"]%string = pre ++ [id] /\
     ExtraSample.history_rate_limited id EmptyString = inr RateLimitedError /\
     Forall (fun i => exists l, ExtraSample.history_rate_limited i EmptyString = inl l) pre).
Proof.
  exact (Builds_Latest_error (inl ExtraSample.targets) ExtraSample.history_rate_limited false true
           ["ios"; "android"]%string RateLimitedError ltac:(vm_compute; reflexivity)).
Defined.

(** Matching the disabled [android] target alone. *)
Lemma Git_BuildsMatchHead_unknown_target_witness :
  Git_BuildsMatchHead_call OutputFormat_Human (GitHead MatchSample.rev_head)
    (inl MatchSample.targets_disabled) MatchSample.no_history MatchSample.no_status
    "android" 0 false = Some (MROk true).
Proof.
  apply (Git_BuildsMatchHead_unknown_target OutputFormat_Human (GitHead MatchSample.rev_head)
           (inl MatchSample.targets_disabled) MatchSample.no_history MatchSample.no_status
           MatchSample.targets_disabled "android" 0 eq_refl ltac:(lia)).
  intros t Hin Hid. destruct Hin as [<-|[<-|[]]]; [discriminate Hid | reflexivity].
Defined.

(** Build [ios #3] records the 3-character revision [abc]. *)
Lemma Git_BuildsMatchHead_panics_only_human_witness :
  Git_BuildsMatchHead OutputFormat_Human MatchSample.rev_head (inl []) MatchSample.no_history
    ExtraSample.status_short_rev "ios" 3 false = MRPanic /\
  OutputFormat_Human = OutputFormat_Human.
Proof.
  assert (H : Git_BuildsMatchHead OutputFormat_Human MatchSample.rev_head (inl [])
                MatchSample.no_history ExtraSample.status_short_rev "ios" 3 false = MRPanic)
    by (vm_compute; reflexivity).
  exact (conj H (Git_BuildsMatchHead_panics_only_human _ _ _ _ _ _ _ _ H)).
Defined.

(** Downloading [game.ipa] into [builds] on Windows. *)
Lemma download_output_plain_witness :
  download_output Windows ExtraSample.grab_ok DownloadSample.url_filename DownloadSample.join
    DownloadSample.temp_name DownloadSample.extract DownloadSample.created
    DownloadSample.created DownloadSample.link "builds" false DownloadSample.empty_fs
  = (DOk, mkFs (<[DownloadSample.join "builds" "game.ipa" := "bytes"%string]> ∅)
              (({[DownloadSample.join "builds" "game.ipa"]} ∪ ∅)
                 ∖ {[DownloadSample.join "builds" "game.ipa"]}),
     [EvCreate (DownloadSample.join "builds" "game.ipa"); EvTransfer (link_Href DownloadSample.link)]).
Proof.
  exact (proj2 (download_output_plain Windows ExtraSample.grab_ok DownloadSample.url_filename
           DownloadSample.join DownloadSample.temp_name DownloadSample.extract
           DownloadSample.created DownloadSample.created DownloadSample.link
           "builds" DownloadSample.empty_fs "game.ipa" "bytes" eq_refl) eq_refl eq_refl).
Defined.

(** Unzipping [game.zip] on Linux when the stream breaks. *)
Lemma download_to_unzip_removes_temp_posix_witness :
  fs_files (snd (fst (download_to Posix DownloadSample.grab_broken DownloadSample.url_filename
                        DownloadSample.join DownloadSample.temp_name DownloadSample.extract
                        DownloadSample.zip_link "builds" true DownloadSample.empty_fs)))
    !! DownloadSample.temp_name "game.zip" = None.
Proof.
  exact (download_to_unzip_removes_temp_posix _ _ _ _ _ DownloadSample.zip_link "builds"
           DownloadSample.empty_fs "game.zip" eq_refl).
Defined.

(** Unzipping [game.zip] on Windows after a complete transfer. *)
Lemma download_output_unzip_leaves_temp_windows_witness :
  fs_files (snd (fst (download_output Windows ExtraSample.grab_ok DownloadSample.url_filename
                        DownloadSample.join DownloadSample.temp_name DownloadSample.extract
                        DownloadSample.created DownloadSample.created
                        DownloadSample.zip_link "builds" true DownloadSample.empty_fs)))
    !! DownloadSample.temp_name "game.zip" = Some "bytes"%string.
Proof.
  apply (download_output_unzip_leaves_temp_windows ExtraSample.grab_ok
           DownloadSample.url_filename DownloadSample.join DownloadSample.temp_name
           DownloadSample.extract DownloadSample.created DownloadSample.created
           DownloadSample.zip_link "builds" DownloadSample.empty_fs "game.zip" "bytes"
           eq_refl eq_refl eq_refl).
  intros g Hg. split; [exact Hg | reflexivity].
Defined.

(** The latest successful build of [ios], which never succeeded. *)
Lemma Builds_Download_cmd_resolution_witness :
  Builds_Download_cmd Posix DownloadSample.stat DownloadSample.grab_broken
    DownloadSample.url_filename DownloadSample.join DownloadSample.temp_name
    DownloadSample.extract DownloadSample.ToLower DownloadSample.created DownloadSample.created
    ExtraSample.history_no_success ExtraSample.status_queued
    "ios" 0 true "builds" false DownloadSample.empty_fs
  = Some (DErr (ErrMsg ("No successful build for target " ++ "ios")),
          DownloadSample.empty_fs, []).
Proof.
  exact (proj1 (Builds_Download_cmd_resolution Posix DownloadSample.stat DownloadSample.grab_broken
                  DownloadSample.url_filename DownloadSample.join DownloadSample.temp_name
                  DownloadSample.extract DownloadSample.ToLower DownloadSample.created
                  DownloadSample.created ExtraSample.history_no_success ExtraSample.status_queued
                  "ios" 0 "builds" false DownloadSample.empty_fs) eq_refl).
Defined.
